(** * nsq-event-bus: the listener (listener.go)

    A shallow embedding of [On], [handleMessage], [checkTopic] and
    [createTopic] of package [bus], and the properties of the listener
    that the design document states about them.

    The listener talks to the outside through the HTTP client, the nsq
    consumer, the JSON decoder and the emitter of the same package.  Those
    collaborators are taken as operations on an abstract [World]; every call
    the listener makes to one of them is recorded, in order, in the list of
    [Event]s that a computation returns. *)

From Stdlib Require Import ZArith String List DecimalString.
From Stdlib.Strings Require Import Byte.
From stdpp Require Import base option list strings gmap.
Import ListNotations.

Open Scope Z_scope.
Open Scope string_scope.
Open Scope list_scope.

(** ** Go values *)

(** Values of Go's [error] interface that the listener can see.  The three
    package-level variables are values of their own: [errors.New] returns a
    distinct value at every call, so an error made elsewhere with the same text
    is not one of them. *)
Inductive goerror : Type :=
| ErrTopicRequired
| ErrHandlerRequired
| ErrChannelRequired
| errors_New (text : string)
| fmt_Errorf (text : string)
| foreign_error (text : string).

(** The [Error()] method. *)
Definition Error (e : goerror) : string :=
  match e with
  | ErrTopicRequired => "topic is mandatory"
  | ErrHandlerRequired => "handler is mandatory"
  | ErrChannelRequired => "channel is mandatory"
  | errors_New t => t
  | fmt_Errorf t => t
  | foreign_error t => t
  end.

(** An [error] is [nil] ([None]) or a value. *)
Definition error : Type := option goerror.

(** The verb [%d] of [fmt] on an [int]. *)
Definition itoa (n : Z) : string := NilZero.string_of_int (Z.to_int n).

(** [len] of a string, as an [int]. *)
Definition len_string (s : string) : Z := Z.of_nat (String.length s).

(** [len] of a slice, as an [int]. *)
Definition len {A : Type} (l : list A) : Z := Z.of_nat (List.length l).

(** [f == nil] on a function value. *)
Definition is_nil {A : Type} (f : option A) : bool :=
  match f with
  | None => true
  | Some _ => false
  end.

Definition http_StatusOK : Z := 200.
Definition http_StatusNotFound : Z := 404.

(** [http.Response], with the body already read. *)
Record Response : Type := {
  Status : string;
  StatusCode : Z;
  Body : list byte
}.

(** [nsq.Message]. *)
Record nsq_Message : Type := {
  msg_ID : list byte;
  msg_Body : list byte;
  msg_Timestamp : Z;
  msg_Attempts : Z
}.

(** Modelled from the spec: the declaration of [Message] is not part of
    listener.go.  The listener uses the embedded [*nsq.Message] and the field
    [ReplyTo]; the design document lists the same two (body and derived
    transport fields, and [replyTo]). *)
Record Message : Type := {
  Message_ : nsq_Message;
  ReplyTo : string
}.

(** The element type of [nodes] in [createTopic]. *)
Record Node : Type := {
  Address : string;
  TCPPort : Z
}.

(** ** Outcomes and computations *)

(** A Go call returns or panics. *)
Inductive outcome (A : Type) : Type :=
| Ret (a : A)
| Panic (text : string).
Arguments Ret {A} a.
Arguments Panic {A} text.

(** The types of the collaborators' values. *)
Record Types : Type := {
  World : Type;          (* the state of everything outside the listener *)
  iface : Type;          (* interface{}: what a handler returns *)
  nsq_Config : Type;     (* *nsq.Config *)
  Consumer : Type;       (* *nsq.Consumer *)
  EmitterConfig : Type;
  Emitter : Type         (* *Emitter *)
}.

Section Listener.

Context {T : Types}.

(** The calls the listener makes to its collaborators. *)
Inductive Event : Type :=
| http_Get_call (url : string)
| http_Post_call (url contentType : string)
| NewConsumer_call (topic channel : string) (config : nsq_Config T)
| AddConcurrentHandlers_call (concurrency : Z)
| ConnectToNSQLookupds_call (addresses : list string)
| HandlerFunc_call (m : Message)
| NewEmitter_call (ec : EmitterConfig T)
| Emit_call (topic : string) (payload : iface T).

(** A computation runs in a world and gives an outcome, the calls it made,
    oldest first, and the world it leaves. *)
Definition M (A : Type) : Type := World T -> outcome A * list Event * World T.

Definition ret {A} (a : A) : M A := fun w => (Ret a, [], w).

Definition panic {A} (text : string) : M A := fun w => (Panic text, [], w).

Definition bind {A B} (c : M A) (k : A -> M B) : M B :=
  fun w =>
    match c w with
    | (Ret a, tr, w1) =>
        match k a w1 with
        | (r, tr', w2) => (r, tr ++ tr', w2)
        end
    | (Panic t, tr, w1) => (Panic t, tr, w1)
    end.

(** One call to a collaborator: record it, then let the world answer. *)
Definition call {A} (e : Event) (f : World T -> A * World T) : M A :=
  fun w => let (a, w1) := f w in (Ret a, [e], w1).

Definition outcome_of {A} (r : outcome A * list Event * World T) : outcome A := r.1.1.
Definition trace_of {A} (r : outcome A * list Event * World T) : list Event := r.1.2.
Definition world_of {A} (r : outcome A * list Event * World T) : World T := r.2.

End Listener.

Arguments Event T : clear implicits.
Arguments M T A : clear implicits.

Declare Scope go_scope.
Delimit Scope go_scope with go.
Notation "x <- c ;; k" := (bind c (fun x => k))
  (at level 100, c at next level, right associativity) : go_scope.
Open Scope go_scope.

(** [HandlerFunc]: [func(m *Message) (interface{}, error)].  The handler gets
    a pointer to the message, so it also returns the message as it leaves
    it; it may do anything to the world. *)
Definition HandlerFunc (T : Types) : Type :=
  Message -> World T -> (Message * iface T * error) * World T.

(** Modelled from the spec: the declaration of [ListenerConfig] is not part
    of listener.go.  These are the fields [On] reads, which are the ones the
    design document lists.  A [nil] handler is [None]. *)
Record ListenerConfig (T : Types) : Type := {
  Topic : string;
  Channel : string;
  Lookup : list string;
  HandlerFunc_ : option (HandlerFunc T);
  HandlerConcurrency : Z;
  AutoCreateTopic : bool
}.
Arguments Topic {T} _.
Arguments Channel {T} _.
Arguments Lookup {T} _.
Arguments HandlerFunc_ {T} _.
Arguments HandlerConcurrency {T} _.
Arguments AutoCreateTopic {T} _.

Definition set_Lookup {T} (lc : ListenerConfig T) (l : list string) : ListenerConfig T :=
  {| Topic := Topic lc; Channel := Channel lc; Lookup := l;
     HandlerFunc_ := HandlerFunc_ lc;
     HandlerConcurrency := HandlerConcurrency lc;
     AutoCreateTopic := AutoCreateTopic lc |}.

Definition set_HandlerConcurrency {T} (lc : ListenerConfig T) (n : Z) : ListenerConfig T :=
  {| Topic := Topic lc; Channel := Channel lc; Lookup := Lookup lc;
     HandlerFunc_ := HandlerFunc_ lc;
     HandlerConcurrency := n;
     AutoCreateTopic := AutoCreateTopic lc |}.

(** The collaborators.  A Go function that returns [(x, err)] with exactly
    one of the two set gives a sum; one that returns only an [error] gives
    an [error]. *)
Record Ops (T : Types) : Type := {
  (* net/http *)
  http_Get : string -> World T -> (Response + goerror) * World T;
  http_Post : string -> string -> World T -> (Response + goerror) * World T;
  (* encoding/json: Decode of a body into the slice of nodes, Unmarshal of a
     body into a message that already holds the transport's fields *)
  json_Decode_nodes : list byte -> list Node + goerror;
  json_Unmarshal : list byte -> Message -> Message * error;
  (* go-nsq *)
  nsq_NewConsumer :
    string -> string -> nsq_Config T -> World T -> (Consumer T + goerror) * World T;
  AddConcurrentHandlers :
    Consumer T -> (nsq_Message -> M T error) -> Z -> World T -> World T;
  ConnectToNSQLookupds : Consumer T -> list string -> World T -> error * World T;
  (* package bus, other files *)
  newListenerConfig : ListenerConfig T -> nsq_Config T;
  EmitterConfig_zero : EmitterConfig T;
  NewEmitter : EmitterConfig T -> World T -> (Emitter T + goerror) * World T;
  Emit : Emitter T -> string -> iface T -> World T -> error * World T
}.
Arguments http_Get {T} _.
Arguments http_Post {T} _.
Arguments json_Decode_nodes {T} _.
Arguments json_Unmarshal {T} _.
Arguments nsq_NewConsumer {T} _.
Arguments AddConcurrentHandlers {T} _.
Arguments ConnectToNSQLookupds {T} _.
Arguments newListenerConfig {T} _.
Arguments EmitterConfig_zero {T} _.
Arguments NewEmitter {T} _.
Arguments Emit {T} _.

(** ** The listener *)

Section Code.

Context {T : Types} (X : Ops T).

(** [s[i]] on a slice: a run-time panic when [i] is out of range. *)
Definition index {A} (s : list A) (i : nat) : M T A :=
  match s !! i with
  | Some a => ret a
  | None => panic "runtime error: index out of range"
  end.

(** [lc.HandlerFunc(&m)]: calling a nil function value panics. *)
Definition call_HandlerFunc (lc : ListenerConfig T) (m : Message)
  : M T (Message * iface T * error) :=
  match HandlerFunc_ lc with
  | Some h => call (HandlerFunc_call m) (h m)
  | None => panic "runtime error: invalid memory address or nil pointer dereference"
  end.

(** listener.go, lines 98-116.  [defer resp.Body.Close()] releases the
    response and is not recorded. *)
Definition checkTopic (lookupAddress topic : string) : M T (bool * error) :=
  let url := "http://" +:+ lookupAddress +:+ "/lookup?topic=" +:+ topic in
  r <- call (http_Get_call url) (http_Get X url) ;;
  match r with
  | inr err => ret (false, Some err)
  | inl resp =>
      if (StatusCode resp =? http_StatusOK)%Z then
        ret (true, None)
      else if (StatusCode resp =? http_StatusNotFound)%Z then
        ret (false, None)
      else
        ret (false,
             Some (fmt_Errorf ("unexpected status code: " +:+ itoa (StatusCode resp))))
  end.

(** listener.go, lines 118-159. *)
Definition createTopic (topic lookupAddress : string) : M T error :=
  let lookupURL := "http://" +:+ lookupAddress +:+ "/nodes" in
  r <- call (http_Get_call lookupURL) (http_Get X lookupURL) ;;
  match r with
  | inr err => ret (Some err)
  | inl resp =>
      if negb (StatusCode resp =? http_StatusOK)%Z then
        ret (Some (fmt_Errorf
                     ("failed to get nsqd address from lookup: " +:+ Status resp)))
      else
        match json_Decode_nodes X (Body resp) with
        | inr err => ret (Some err)
        | inl nodes =>
            if (len nodes =? 0)%Z then
              ret (Some (errors_New "no nsqd nodes found in lookup"))
            else
              n0 <- index nodes 0 ;;
              let nsqdAddress := Address n0 +:+ ":" +:+ itoa (TCPPort n0) in
              let createURL :=
                "http://" +:+ nsqdAddress +:+ "/topic/create?topic=" +:+ topic in
              r <- call (http_Post_call createURL "") (http_Post X createURL "") ;;
              match r with
              | inr err => ret (Some err)
              | inl createResp =>
                  if (StatusCode createResp =? http_StatusOK)%Z then
                    ret None
                  else
                    ret (Some (fmt_Errorf
                                 ("failed to create topic: " +:+ Status createResp)))
              end
        end
  end.

(** listener.go, lines 73-96: the callback registered with the consumer. *)
Definition handleMessage (lc : ListenerConfig T) : nsq_Message -> M T error :=
  fun message =>
    let m := {| Message_ := message; ReplyTo := "" |} in
    let (m, err) := json_Unmarshal X (msg_Body message) m in
    match err with
    | Some e => ret (Some e)
    | None =>
        r <- call_HandlerFunc lc m ;;
        let '(m, res, err) := r in
        match err with
        | Some e => ret (Some e)
        | None =>
            if (ReplyTo m =? "")%string then
              ret None
            else
              r <- call (NewEmitter_call (EmitterConfig_zero X))
                        (NewEmitter X (EmitterConfig_zero X)) ;;
              match r with
              | inr e => ret (Some e)
              | inl emitter =>
                  call (Emit_call (ReplyTo m) res) (Emit X emitter (ReplyTo m) res)
              end
        end
    end.

(** listener.go, lines 27-71. *)
Definition On (lc : ListenerConfig T) : M T error :=
  if (len_string (Topic lc) =? 0)%Z then ret (Some ErrTopicRequired) else
  if (len_string (Channel lc) =? 0)%Z then ret (Some ErrChannelRequired) else
  if is_nil (HandlerFunc_ lc) then ret (Some ErrHandlerRequired) else
  let lc := if (len (Lookup lc) =? 0)%Z
            then set_Lookup lc ["localhost:4161"] else lc in
  let lc := if (HandlerConcurrency lc =? 0)%Z
            then set_HandlerConcurrency lc 1 else lc in
  (* create topic if not exists *)
  err <- (if AutoCreateTopic lc then
            a <- index (Lookup lc) 0 ;;
            r <- checkTopic a (Topic lc) ;;
            let (exist, err) := r in
            match err with
            | Some e => ret (Some e)
            | None =>
                if negb exist then
                  a <- index (Lookup lc) 0 ;;
                  createTopic (Topic lc) a
                else ret None
            end
          else ret None) ;;
  match err with
  | Some e => ret (Some e)
  | None =>
      let config := newListenerConfig X lc in
      r <- call (NewConsumer_call (Topic lc) (Channel lc) config)
                (nsq_NewConsumer X (Topic lc) (Channel lc) config) ;;
      match r with
      | inr e => ret (Some e)
      | inl consumer =>
          let handler := handleMessage lc in
          _ <- call (AddConcurrentHandlers_call (HandlerConcurrency lc))
                    (fun w => (tt, AddConcurrentHandlers X consumer handler
                                     (HandlerConcurrency lc) w)) ;;
          call (ConnectToNSQLookupds_call (Lookup lc))
               (ConnectToNSQLookupds X consumer (Lookup lc))
      end
  end.

End Code.

(** ** The stages of [On]

    The design document names the parts of [On]: validation, defaulting,
    the topic provisioner ([ensureTopic]) and the start of the subscription.
    Each is given here as the lines of [On] that make it up; [On_stages]
    below shows that [On] is their composition. *)

Section Stages.

Context {T : Types} (X : Ops T).

(** A configuration that passes lines 28-38. *)
Definition valid (lc : ListenerConfig T) : Prop :=
  Topic lc <> "" /\ Channel lc <> "" /\ HandlerFunc_ lc <> None.

(** Lines 40-46. *)
Definition fillDefaults (lc : ListenerConfig T) : ListenerConfig T :=
  let lc := if (len (Lookup lc) =? 0)%Z
            then set_Lookup lc ["localhost:4161"] else lc in
  let lc := if (HandlerConcurrency lc =? 0)%Z
            then set_HandlerConcurrency lc 1 else lc in
  lc.

(** Lines 50-59, at the discovery address [lc.Lookup[0]]. *)
Definition ensureTopic (discoveryAddr topic : string) : M T error :=
  r <- checkTopic X discoveryAddr topic ;;
  let (exist, err) := r in
  match err with
  | Some e => ret (Some e)
  | None =>
      if negb exist then createTopic X topic discoveryAddr
      else ret None
  end.

(** Lines 62-70. *)
Definition subscribe (lc : ListenerConfig T) : M T error :=
  let config := newListenerConfig X lc in
  r <- call (NewConsumer_call (Topic lc) (Channel lc) config)
            (nsq_NewConsumer X (Topic lc) (Channel lc) config) ;;
  match r with
  | inr e => ret (Some e)
  | inl consumer =>
      let handler := handleMessage X lc in
      _ <- call (AddConcurrentHandlers_call (HandlerConcurrency lc))
                (fun w => (tt, AddConcurrentHandlers X consumer handler
                                 (HandlerConcurrency lc) w)) ;;
      call (ConnectToNSQLookupds_call (Lookup lc))
           (ConnectToNSQLookupds X consumer (Lookup lc))
  end.

(** Lines 48-70, on the configuration with its defaults filled. *)
Definition provisionAndSubscribe (lc : ListenerConfig T) : M T error :=
  err <- (if AutoCreateTopic lc then
            a <- index (Lookup lc) 0 ;;
            ensureTopic a (Topic lc)
          else ret None) ;;
  match err with
  | Some e => ret (Some e)
  | None => subscribe lc
  end.

(** The calls that reach the transport (the nsq consumer). *)
Definition is_transport_call (e : Event T) : bool :=
  match e with
  | NewConsumer_call _ _ _ => true
  | AddConcurrentHandlers_call _ => true
  | ConnectToNSQLookupds_call _ => true
  | _ => false
  end.

(** The calls that reach the network during provisioning. *)
Definition is_http_call (e : Event T) : bool :=
  match e with
  | http_Get_call _ => true
  | http_Post_call _ _ => true
  | _ => false
  end.

(** The publish calls made, as (destination, payload), oldest first. *)
Fixpoint publishes (tr : list (Event T)) : list (string * iface T) :=
  match tr with
  | [] => []
  | Emit_call topic payload :: tr' => (topic, payload) :: publishes tr'
  | _ :: tr' => publishes tr'
  end.

Definition lookupURL (discoveryAddr topic : string) : string :=
  "http://" +:+ discoveryAddr +:+ "/lookup?topic=" +:+ topic.

Definition nodesURL (discoveryAddr : string) : string :=
  "http://" +:+ discoveryAddr +:+ "/nodes".

Definition createURL (n : Node) (topic : string) : string :=
  "http://" +:+ (Address n +:+ ":" +:+ itoa (TCPPort n))
  +:+ "/topic/create?topic=" +:+ topic.

(** What [checkTopic] makes of the answer to its request. *)
Definition checkTopic_result (r : Response + goerror) : bool * error :=
  match r with
  | inr err => (false, Some err)
  | inl resp =>
      if (StatusCode resp =? http_StatusOK)%Z then (true, None)
      else if (StatusCode resp =? http_StatusNotFound)%Z then (false, None)
      else (false, Some (fmt_Errorf
                           ("unexpected status code: " +:+ itoa (StatusCode resp))))
  end.

(** What [createTopic] makes of the answer to its create-topic command. *)
Definition createTopic_result (r : Response + goerror) : error :=
  match r with
  | inr err => Some err
  | inl createResp =>
      if (StatusCode createResp =? http_StatusOK)%Z then None
      else Some (fmt_Errorf ("failed to create topic: " +:+ Status createResp))
  end.

(** The calls the provisioner may make for topic [t] at discovery address
    [a]: the two queries at [a], and a create-topic command at a node. *)
Definition provisioning_call (a t : string) (e : Event T) : Prop :=
  e = http_Get_call (lookupURL a t) \/
  e = http_Get_call (nodesURL a) \/
  exists n : Node, e = http_Post_call (createURL n t) "".

(** The calls [subscribe] may make for the configuration [lc]. *)
Definition subscription_call (lc : ListenerConfig T) (e : Event T) : Prop :=
  e = NewConsumer_call (Topic lc) (Channel lc) (newListenerConfig X lc) \/
  e = AddConcurrentHandlers_call (HandlerConcurrency lc) \/
  e = ConnectToNSQLookupds_call (Lookup lc).

End Stages.

(** ** Scripted collaborators

    A world to run the listener in: the outside keeps the list of the requests
    it has seen, and answers from a script. *)

Definition T0 : Types :=
  {| World := list string;
     iface := string;
     nsq_Config := unit;
     Consumer := unit;
     EmitterConfig := unit;
     Emitter := unit |}.

Record Script : Type := {
  on_get : string -> Response + goerror;
  on_post : string -> Response + goerror;
  on_decode : list byte -> list Node + goerror;
  on_unmarshal : list byte -> Message -> Message * error;
  on_newConsumer : unit + goerror;
  on_connect : error;
  on_newEmitter : unit + goerror;
  on_emit : error
}.

Definition scripted (s : Script) : Ops T0 :=
  {| http_Get := fun url (w : World T0) => (on_get s url, w ++ ["GET " +:+ url]);
     http_Post := fun url _ (w : World T0) => (on_post s url, w ++ ["POST " +:+ url]);
     json_Decode_nodes := on_decode s;
     json_Unmarshal := on_unmarshal s;
     nsq_NewConsumer := fun topic channel _ (w : World T0) =>
       (on_newConsumer s, w ++ ["consumer " +:+ topic +:+ "/" +:+ channel]);
     AddConcurrentHandlers := fun _ _ n (w : World T0) => w ++ ["handlers " +:+ itoa n];
     ConnectToNSQLookupds := fun _ addrs (w : World T0) =>
       (on_connect s, w ++ ("connect" :: addrs));
     newListenerConfig := fun _ => tt;
     EmitterConfig_zero := tt;
     NewEmitter := fun _ (w : World T0) => (on_newEmitter s, w ++ ["emitter"]);
     Emit := fun _ topic payload (w : World T0) =>
       (on_emit s, w ++ ["publish " +:+ topic +:+ " " +:+ payload]) |}.

Definition response (code : Z) (status : string) : Response :=
  {| Status := status; StatusCode := code; Body := [] |}.

(** A decoder for the scripts: the body's bytes are the reply destination,
    and a body that starts with ["!"] does not parse. *)
Definition unmarshal_replyTo (body : list byte) (m : Message) : Message * error :=
  match body with
  | x21 :: _ => (m, Some (foreign_error "invalid character '!'"))
  | _ => ({| Message_ := Message_ m; ReplyTo := string_of_list_byte body |}, None)
  end.

(** Everything answers well: the topic is known, one node, all calls succeed. *)
Definition all_well : Script :=
  {| on_get := fun _ => inl (response 200 "200 OK");
     on_post := fun _ => inl (response 200 "200 OK");
     on_decode := fun _ => inl [ {| Address := "n1"; TCPPort := 4150 |} ];
     on_unmarshal := unmarshal_replyTo;
     on_newConsumer := inl tt;
     on_connect := None;
     on_newEmitter := inl tt;
     on_emit := None |}.

Definition message_of (body : string) : nsq_Message :=
  {| msg_ID := []; msg_Body := list_byte_of_string body;
     msg_Timestamp := 0; msg_Attempts := 1 |}.

(** A handler that answers ["pong"] and leaves the message alone. *)
Definition pong : HandlerFunc T0 :=
  fun m w => ((m, "pong", None), w ++ ["handled"]).

(** A handler that fails. *)
Definition failing : HandlerFunc T0 :=
  fun m w => ((m, "", Some (foreign_error "boom")), w ++ ["handled"]).

(** A handler that answers ["pong"] and clears the reply destination through
    the pointer it was given. *)
Definition silencing : HandlerFunc T0 :=
  fun m w => (({| Message_ := Message_ m; ReplyTo := "" |}, "pong", None),
              w ++ ["handled"]).

Definition config0 (topic channel : string) (lookup : list string)
           (h : option (HandlerFunc T0)) (n : Z) (auto : bool) : ListenerConfig T0 :=
  {| Topic := topic; Channel := channel; Lookup := lookup;
     HandlerFunc_ := h; HandlerConcurrency := n; AutoCreateTopic := auto |}.

(** Whether a URL is the node query. *)
Definition is_nodes_query (url : string) : bool :=
  (substring (String.length url - 6) 6 url =? "/nodes")%string.

(** A discovery service and a broker that answer as told; the rest is as
    in [all_well]. *)
Definition provisioning (lookup nodes : Response + goerror)
           (decoded : list Node + goerror) (create : Response + goerror) : Script :=
  {| on_get := fun url => if is_nodes_query url then nodes else lookup;
     on_post := fun _ => create;
     on_decode := fun _ => decoded;
     on_unmarshal := unmarshal_replyTo;
     on_newConsumer := inl tt;
     on_connect := None;
     on_newEmitter := inl tt;
     on_emit := None |}.

Definition n1 : Node := {| Address := "n1"; TCPPort := 4150 |}.
Definition n2 : Node := {| Address := "n2"; TCPPort := 4150 |}.

Definition ok : Response + goerror := inl (response 200 "200 OK").

(** The topic is known. *)
Definition topic_known : Ops T0 :=
  scripted (provisioning ok ok (inl [n1]) ok).

(** The topic is unknown, one node is live and creates it. *)
Definition topic_unknown : Ops T0 :=
  scripted (provisioning (inl (response 404 "404 Not Found")) ok (inl [n1]) ok).

(** The discovery service fails on the lookup query. *)
Definition lookup_broken : Ops T0 :=
  scripted (provisioning (inl (response 500 "500 Internal Server Error"))
                         ok (inl [n1]) ok).

Definition unavailable : Response + goerror :=
  inl (response 503 "503 Service Unavailable").

Definition broken : Response + goerror :=
  inl (response 500 "500 Internal Server Error").

(** The node query is refused. *)
Definition nodes_refused : Ops T0 :=
  scripted (provisioning (inl (response 404 "404 Not Found")) unavailable (inl [n1]) ok).

(** No node is live. *)
Definition no_nodes : Ops T0 :=
  scripted (provisioning (inl (response 404 "404 Not Found")) ok (inl []) ok).

(** Two nodes are live and the first creates the topic. *)
Definition two_nodes : Ops T0 :=
  scripted (provisioning (inl (response 404 "404 Not Found")) ok (inl [n1; n2]) ok).

(** Two nodes are live and the first refuses to create the topic. *)
Definition create_refused : Ops T0 :=
  scripted (provisioning (inl (response 404 "404 Not Found")) ok (inl [n1; n2]) broken).

Definition all_well_ops : Ops T0 := scripted all_well.

(** The emitter cannot be constructed. *)
Definition emitter_down : Ops T0 :=
  scripted
    {| on_get := on_get all_well; on_post := on_post all_well;
       on_decode := on_decode all_well; on_unmarshal := unmarshal_replyTo;
       on_newConsumer := inl tt; on_connect := None;
       on_newEmitter := inr (foreign_error "no producer");
       on_emit := None |}.

(** The emitter is constructed and its publish call fails. *)
Definition publish_fails : Ops T0 :=
  scripted
    {| on_get := on_get all_well; on_post := on_post all_well;
       on_decode := on_decode all_well; on_unmarshal := unmarshal_replyTo;
       on_newConsumer := inl tt; on_connect := None;
       on_newEmitter := inl tt;
       on_emit := Some (foreign_error "publish failed") |}.

Definition listener (h : HandlerFunc T0) : ListenerConfig T0 :=
  config0 "orders" "billing" ["disc:4161"; "other:4161"] (Some h) 1 true.

(** The message as [handleMessage] holds it before decoding. *)
Definition undecoded (message : nsq_Message) : Message :=
  {| Message_ := message; ReplyTo := "" |}.

(** ** The reply rule as the design document states it

    For a delivered message whose body parses into an envelope [m] and whose
    handler succeeds with result [res]: a non-empty [replyTo] of [m] gives
    exactly one publish call, to that destination, with [res]; an empty one
    gives no publish call and success. *)
Definition replies_as_stated {T : Types} (X : Ops T) (lc : ListenerConfig T)
           (message : nsq_Message) (w : World T) : Prop :=
  forall (m : Message) (h : HandlerFunc T) (m' : Message) (res : iface T)
         (w1 : World T),
    json_Unmarshal X (msg_Body message) (undecoded message) = (m, None) ->
    HandlerFunc_ lc = Some h ->
    h m w = ((m', res, None), w1) ->
    (forall x : string, ReplyTo m = x -> x <> "" ->
       publishes (trace_of (handleMessage X lc message w)) = [(x, res)]) /\
    (ReplyTo m = "" ->
       publishes (trace_of (handleMessage X lc message w)) = [] /\
       outcome_of (handleMessage X lc message w) = Ret None).

(** ** The configuration in memory

    [On] takes its configuration by value.  What the caller and [On] can
    share is the backing array of [Lookup]: a slice is a header (pointer,
    length, capacity) into an array on the heap, and copying the struct copies
    the header, not the array.  Here the caller's variable, the parameter of
    [On] and the arrays are kept apart, and lines 27-46 are run on them as
    Go runs them.  The collaborators are handed the contents of the slice
    and do not write through it. *)

Record Slice : Type := {
  base : option positive;     (* nil, or the address of the backing array *)
  slice_len : nat;
  slice_cap : nat
}.

(** [ListenerConfig] as a struct value: [Lookup] is a slice header. *)
Record ListenerConfig_mem (T : Types) : Type := {
  mem_Topic : string;
  mem_Channel : string;
  mem_Lookup : Slice;
  mem_HandlerFunc : option (HandlerFunc T);
  mem_HandlerConcurrency : Z;
  mem_AutoCreateTopic : bool
}.
Arguments mem_Topic {T} _.
Arguments mem_Channel {T} _.
Arguments mem_Lookup {T} _.
Arguments mem_HandlerFunc {T} _.
Arguments mem_HandlerConcurrency {T} _.
Arguments mem_AutoCreateTopic {T} _.

(** The caller's variable, the parameter [lc] of [On], and the heap of
    backing arrays. *)
Record Store (T : Types) : Type := {
  caller_lc : ListenerConfig_mem T;
  On_lc : ListenerConfig_mem T;
  arrays : gmap positive (list string)
}.
Arguments caller_lc {T} _.
Arguments On_lc {T} _.
Arguments arrays {T} _.

Section Memory.

Context {T : Types} (X : Ops T).

(** The elements a slice gives access to. *)
Definition slice_contents (h : gmap positive (list string)) (s : Slice) : list string :=
  match base s with
  | None => []
  | Some l => take (slice_len s) (default [] (h !! l))
  end.

(** A slice of a running program points into an allocated array that is long
    enough; a nil slice has length 0. *)
Definition slice_ok (h : gmap positive (list string)) (s : Slice) : Prop :=
  match base s with
  | None => slice_len s = 0%nat
  | Some l => exists arr, h !! l = Some arr /\ (slice_len s <= List.length arr)%nat
  end.

(** The configuration a struct value stands for, given the heap. *)
Definition config_at (h : gmap positive (list string)) (v : ListenerConfig_mem T)
  : ListenerConfig T :=
  {| Topic := mem_Topic v;
     Channel := mem_Channel v;
     Lookup := slice_contents h (mem_Lookup v);
     HandlerFunc_ := mem_HandlerFunc v;
     HandlerConcurrency := mem_HandlerConcurrency v;
     AutoCreateTopic := mem_AutoCreateTopic v |}.

(** [lc.Lookup = []string{"localhost:4161"}]: a new array, and a header for
    it in the parameter. *)
Definition assign_default_Lookup (s : Store T) : Store T :=
  let l := fresh (dom (arrays s)) in
  {| caller_lc := caller_lc s;
     On_lc := {| mem_Topic := mem_Topic (On_lc s);
                 mem_Channel := mem_Channel (On_lc s);
                 mem_Lookup := {| base := Some l; slice_len := 1; slice_cap := 1 |};
                 mem_HandlerFunc := mem_HandlerFunc (On_lc s);
                 mem_HandlerConcurrency := mem_HandlerConcurrency (On_lc s);
                 mem_AutoCreateTopic := mem_AutoCreateTopic (On_lc s) |};
     arrays := <[l := ["localhost:4161"]]> (arrays s) |}.

(** [lc.HandlerConcurrency = 1]. *)
Definition assign_HandlerConcurrency (s : Store T) (n : Z) : Store T :=
  {| caller_lc := caller_lc s;
     On_lc := {| mem_Topic := mem_Topic (On_lc s);
                 mem_Channel := mem_Channel (On_lc s);
                 mem_Lookup := mem_Lookup (On_lc s);
                 mem_HandlerFunc := mem_HandlerFunc (On_lc s);
                 mem_HandlerConcurrency := n;
                 mem_AutoCreateTopic := mem_AutoCreateTopic (On_lc s) |};
     arrays := arrays s |}.

(** The call [On(lc)]: the caller's struct is copied into the parameter. *)
Definition pass_by_value (s : Store T) : Store T :=
  {| caller_lc := caller_lc s; On_lc := caller_lc s; arrays := arrays s |}.

(** [On] on the store: lines 27-46 as written, then lines 48-70, which only
    read the parameter. *)
Definition On_mem (s : Store T) (w : World T)
  : (outcome error * list (Event T) * World T) * Store T :=
  let s := pass_by_value s in
  if (len_string (mem_Topic (On_lc s)) =? 0)%Z then
    (ret (Some ErrTopicRequired) w, s) else
  if (len_string (mem_Channel (On_lc s)) =? 0)%Z then
    (ret (Some ErrChannelRequired) w, s) else
  if is_nil (mem_HandlerFunc (On_lc s)) then
    (ret (Some ErrHandlerRequired) w, s) else
  let s := if (Z.of_nat (slice_len (mem_Lookup (On_lc s))) =? 0)%Z
           then assign_default_Lookup s else s in
  let s := if (mem_HandlerConcurrency (On_lc s) =? 0)%Z
           then assign_HandlerConcurrency s 1 else s in
  (provisionAndSubscribe X (config_at (arrays s) (On_lc s)) w, s).

End Memory.

(** A caller whose configuration has a nil [Lookup] and concurrency 0, and a
    caller whose [Lookup] points to an array of two addresses. *)
Definition caller_with_nil : Store T0 :=
  {| caller_lc := {| mem_Topic := "orders"; mem_Channel := "billing";
                     mem_Lookup := {| base := None; slice_len := 0; slice_cap := 0 |};
                     mem_HandlerFunc := Some pong;
                     mem_HandlerConcurrency := 0;
                     mem_AutoCreateTopic := false |};
     On_lc := {| mem_Topic := ""; mem_Channel := "";
                 mem_Lookup := {| base := None; slice_len := 0; slice_cap := 0 |};
                 mem_HandlerFunc := None;
                 mem_HandlerConcurrency := 0;
                 mem_AutoCreateTopic := false |};
     arrays := {[ 1%positive := ["kept"] ]} |}.

Definition caller_with_two : Store T0 :=
  {| caller_lc := {| mem_Topic := "orders"; mem_Channel := "billing";
                     mem_Lookup := {| base := Some 1%positive;
                                      slice_len := 2; slice_cap := 3 |};
                     mem_HandlerFunc := Some pong;
                     mem_HandlerConcurrency := 0;
                     mem_AutoCreateTopic := false |};
     On_lc := {| mem_Topic := ""; mem_Channel := "";
                 mem_Lookup := {| base := None; slice_len := 0; slice_cap := 0 |};
                 mem_HandlerFunc := None;
                 mem_HandlerConcurrency := 0;
                 mem_AutoCreateTopic := false |};
     arrays := {[ 1%positive := ["a:4161"; "b:4161"; "spare"] ]} |}.

(** ** The shape of a run

    The lists of calls that the functions of the listener can leave. *)

Section Shapes.

Context {T : Types} (X : Ops T).

(** The calls of [createTopic]: the node query, then at most one
    create-topic command. *)
Definition creation_trace (a t : string) (tr : list (Event T)) : Prop :=
  tr = [http_Get_call (nodesURL a)] \/
  exists n : Node,
    tr = [http_Get_call (nodesURL a); http_Post_call (createURL n t) ""].

(** The calls of lines 49-60: none, or the lookup query followed by the
    calls of [createTopic], if any. *)
Definition provisioning_trace (a t : string) (tr : list (Event T)) : Prop :=
  tr = [] \/
  tr = [http_Get_call (lookupURL a t)] \/
  exists tr', tr = http_Get_call (lookupURL a t) :: tr' /\ creation_trace a t tr'.

(** The three calls that start the subscription. *)
Definition subscription_calls (lc : ListenerConfig T) : list (Event T) :=
  [NewConsumer_call (Topic lc) (Channel lc) (newListenerConfig X lc);
   AddConcurrentHandlers_call (HandlerConcurrency lc);
   ConnectToNSQLookupds_call (Lookup lc)].

(** The calls of lines 62-70: none, the refused construction of the
    consumer, or the three calls. *)
Definition subscription_trace (lc : ListenerConfig T) (tr : list (Event T)) : Prop :=
  tr = [] \/
  tr = [NewConsumer_call (Topic lc) (Channel lc) (newListenerConfig X lc)] \/
  tr = subscription_calls lc.

(** The calls of the callback on the decoded message [m]. *)
Definition dispatch_trace (m : Message) (tr : list (Event T)) : Prop :=
  tr = [] \/
  tr = [HandlerFunc_call m] \/
  tr = [HandlerFunc_call m; NewEmitter_call (EmitterConfig_zero X)] \/
  exists (topic : string) (res : iface T),
    tr = [HandlerFunc_call m; NewEmitter_call (EmitterConfig_zero X);
          Emit_call topic res].

(** The message the callback hands to the handler, and the decoder's
    error. *)
Definition decoded (message : nsq_Message) : Message * error :=
  json_Unmarshal X (msg_Body message) (undecoded message).

(** The runs of the callback, one by one. *)
Inductive dispatch_run (lc : ListenerConfig T) (message : nsq_Message)
          (w : World T) : outcome error * list (Event T) * World T -> Prop :=
| run_parse_error m e :
    decoded message = (m, Some e) ->
    dispatch_run lc message w (Ret (Some e), [], w)
| run_nil_handler m :
    decoded message = (m, None) ->
    HandlerFunc_ lc = None ->
    dispatch_run lc message w
      (Panic "runtime error: invalid memory address or nil pointer dereference", [], w)
| run_handler_error m h m' res e w1 :
    decoded message = (m, None) ->
    HandlerFunc_ lc = Some h ->
    h m w = ((m', res, Some e), w1) ->
    dispatch_run lc message w (Ret (Some e), [HandlerFunc_call m], w1)
| run_no_reply m h m' res w1 :
    decoded message = (m, None) ->
    HandlerFunc_ lc = Some h ->
    h m w = ((m', res, None), w1) ->
    ReplyTo m' = "" ->
    dispatch_run lc message w (Ret None, [HandlerFunc_call m], w1)
| run_no_emitter m h m' res e w1 w2 :
    decoded message = (m, None) ->
    HandlerFunc_ lc = Some h ->
    h m w = ((m', res, None), w1) ->
    ReplyTo m' <> "" ->
    NewEmitter X (EmitterConfig_zero X) w1 = (inr e, w2) ->
    dispatch_run lc message w
      (Ret (Some e), [HandlerFunc_call m; NewEmitter_call (EmitterConfig_zero X)], w2)
| run_reply m h m' res em w1 w2 :
    decoded message = (m, None) ->
    HandlerFunc_ lc = Some h ->
    h m w = ((m', res, None), w1) ->
    ReplyTo m' <> "" ->
    NewEmitter X (EmitterConfig_zero X) w1 = (inl em, w2) ->
    dispatch_run lc message w
      (Ret (Emit X em (ReplyTo m') res w2).1,
       [HandlerFunc_call m; NewEmitter_call (EmitterConfig_zero X);
        Emit_call (ReplyTo m') res],
       (Emit X em (ReplyTo m') res w2).2).

End Shapes.

(** The consumer cannot be constructed. *)
Definition consumer_refused : Ops T0 :=
  scripted
    {| on_get := on_get all_well; on_post := on_post all_well;
       on_decode := on_decode all_well; on_unmarshal := unmarshal_replyTo;
       on_newConsumer := inr (foreign_error "invalid topic name");
       on_connect := None;
       on_newEmitter := inl tt;
       on_emit := None |}.

(** The discovery service cannot be reached. *)
Definition discovery_unreachable : Ops T0 :=
  scripted (provisioning (inr (foreign_error "connection refused"))
                         (inr (foreign_error "connection refused"))
                         (inl [n1]) ok).

(** The consumer is constructed and its connect fails. *)
Definition connect_fails : Ops T0 :=
  scripted
    {| on_get := on_get all_well; on_post := on_post all_well;
       on_decode := on_decode all_well; on_unmarshal := unmarshal_replyTo;
       on_newConsumer := inl tt;
       on_connect := Some (foreign_error "no lookupd reachable");
       on_newEmitter := inl tt;
       on_emit := None |}.

(** ** The creation rule as the design document states it

    For a creation attempt: a status other than 200 from the node query is an
    error; a 200 answer carrying an empty node list is the "no nodes found"
    error with no create-topic command; in every other case exactly one
    create-topic command is issued, to the first node, and the operation
    succeeds if and only if that command is answered with status 200, the
    error carrying the broker's status text otherwise. *)

Section CreationAsStated.

Context {T : Types} (X : Ops T).

(** The create-topic commands among the calls, by URL, oldest first. *)
Fixpoint create_commands (tr : list (Event T)) : list string :=
  match tr with
  | [] => []
  | http_Post_call url _ :: tr' => url :: create_commands tr'
  | _ :: tr' => create_commands tr'
  end.

Definition creation_as_stated (t a : string) (w : World T) : Prop :=
  let run := createTopic X t a w in
  let answer := (http_Get X (nodesURL a) w).1 in
  let after := (http_Get X (nodesURL a) w).2 in
  let refused :=
    exists resp, answer = inl resp /\ StatusCode resp <> 200 in
  let no_node :=
    exists resp, answer = inl resp /\ StatusCode resp = 200 /\
                 json_Decode_nodes X (Body resp) = inl [] in
  (refused -> exists e, outcome_of run = Ret (Some e)) /\
  (no_node ->
   outcome_of run = Ret (Some (errors_New "no nsqd nodes found in lookup")) /\
   create_commands (trace_of run) = []) /\
  (~ refused -> ~ no_node ->
   exists url : string,
     create_commands (trace_of run) = [url] /\
     (forall resp n0 rest,
        answer = inl resp ->
        json_Decode_nodes X (Body resp) = inl (n0 :: rest) ->
        url = createURL n0 t) /\
     (outcome_of run = Ret None <->
      exists r, (http_Post X url "" after).1 = inl r /\ StatusCode r = 200) /\
     (outcome_of run <> Ret None ->
      exists r, (http_Post X url "" after).1 = inl r /\
                outcome_of run
                = Ret (Some (fmt_Errorf ("failed to create topic: " +:+ Status r))))).

End CreationAsStated.

(** The node query is answered with status 200 and a body that is not a list
    of nodes. *)
Definition nodes_garbled : Ops T0 :=
  scripted (provisioning (inl (response 404 "404 Not Found")) ok
              (inr (foreign_error "json: cannot unmarshal object into Go value"))
              ok).

(** Two nodes are live and the first cannot be reached. *)
Definition create_unreachable : Ops T0 :=
  scripted (provisioning (inl (response 404 "404 Not Found")) ok (inl [n1; n2])
              (inr (foreign_error "connection refused"))).

(** ** Running computations *)

Section Run.

Context {T : Types}.

Lemma bind_ret_l {A B} (a : A) (k : A -> M T B) (w : World T) :
  bind (ret a) k w = k a w.
Proof.
  unfold bind, ret. destruct (k a w) as [[r tr] w']. reflexivity.
Qed.

Lemma bind_call {A B} (e : Event T) (f : World T -> A * World T)
      (k : A -> M T B) (w : World T) :
  bind (call e f) k w =
  let '(r, tr, w') := k (f w).1 (f w).2 in (r, e :: tr, w').
Proof.
  unfold bind, call. destruct (f w) as [a w1]. simpl.
  destruct (k a w1) as [[r tr] w']. reflexivity.
Qed.

Lemma bind_run {A B} (c : M T A) (k : A -> M T B) (w w1 : World T)
      (a : A) (tr : list (Event T)) :
  c w = (Ret a, tr, w1) ->
  bind c k w = let '(r, tr', w') := k a w1 in (r, tr ++ tr', w').
Proof. intros H. unfold bind. rewrite H. reflexivity. Qed.

Lemma len_string_0 (s : string) : (len_string s =? 0)%Z = true <-> s = "".
Proof.
  unfold len_string. destruct s; simpl; split; intros H;
    first [reflexivity | discriminate | lia].
Qed.

Lemma len_string_not0 (s : string) : s <> "" -> (len_string s =? 0)%Z = false.
Proof.
  intros H. destruct (len_string s =? 0)%Z eqn:E; [|reflexivity].
  apply len_string_0 in E. contradiction.
Qed.

Lemma len_0 {A} (l : list A) : (len l =? 0)%Z = true <-> l = [].
Proof.
  unfold len. destruct l; simpl; split; intros H;
    first [reflexivity | discriminate | lia].
Qed.

Lemma is_nil_false {A} (f : option A) : f <> None -> is_nil f = false.
Proof. destruct f; [reflexivity | congruence]. Qed.

End Run.

(** ** Runs on the scripted collaborators *)

Example itoa_examples :
  itoa 500 = "500" /\ itoa 0 = "0" /\ itoa (-7) = "-7" /\ itoa 4150 = "4150".
Proof. repeat split. Qed.

Example createURL_n1 :
  createURL n1 "orders" = "http://n1:4150/topic/create?topic=orders".
Proof. reflexivity. Qed.

(** The scenario of the design document: topic ["orders"], channel
    ["billing"], discovery at ["disc:4161"], the topic absent and one node
    [n1:4150] that creates it. *)
Example On_orders_billing :
  On topic_unknown (config0 "orders" "billing" ["disc:4161"] (Some pong) 1 true) []
  = (Ret None,
     [http_Get_call "http://disc:4161/lookup?topic=orders";
      http_Get_call "http://disc:4161/nodes";
      http_Post_call "http://n1:4150/topic/create?topic=orders" "";
      NewConsumer_call "orders" "billing" (tt : nsq_Config T0);
      AddConcurrentHandlers_call 1;
      ConnectToNSQLookupds_call ["disc:4161"]],
     ["GET http://disc:4161/lookup?topic=orders";
      "GET http://disc:4161/nodes";
      "POST http://n1:4150/topic/create?topic=orders";
      "consumer orders/billing";
      "handlers 1";
      "connect"; "disc:4161"]).
Proof. vm_compute. reflexivity. Qed.

(** Without discovery addresses and with concurrency 0 the consumer gets
    the defaults. *)
Example On_with_defaults :
  On all_well_ops (config0 "orders" "billing" [] (Some pong) 0 false) []
  = (Ret None,
     [NewConsumer_call "orders" "billing" (tt : nsq_Config T0);
      AddConcurrentHandlers_call 1;
      ConnectToNSQLookupds_call ["localhost:4161"]],
     ["consumer orders/billing"; "handlers 1"; "connect"; "localhost:4161"]).
Proof. vm_compute. reflexivity. Qed.

(** A message with reply destination ["replies"] handled by [pong]. *)
Example handleMessage_ping :
  handleMessage all_well_ops (listener pong) (message_of "replies") []
  = (Ret None,
     [HandlerFunc_call {| Message_ := message_of "replies"; ReplyTo := "replies" |};
      NewEmitter_call (tt : EmitterConfig T0);
      Emit_call "replies" ("pong" : iface T0)],
     ["handled"; "emitter"; "publish replies pong"]).
Proof. vm_compute. reflexivity. Qed.

(** [handleMessage] on a configuration without a handler panics once the
    body has parsed; [On] never builds such a callback. *)
Example handleMessage_nil_handler :
  outcome_of (handleMessage all_well_ops
                (config0 "orders" "billing" [] None 1 false) (message_of "x") [])
  = Panic "runtime error: invalid memory address or nil pointer dereference".
Proof. reflexivity. Qed.

(** ** Validation (lines 28-38) *)

Section Validation.

Context {T : Types} (X : Ops T).

Lemma On_no_topic (lc : ListenerConfig T) (w : World T) :
  Topic lc = "" -> On X lc w = (Ret (Some ErrTopicRequired), [], w).
Proof.
  intros H. unfold On. rewrite H. reflexivity.
Qed.

Lemma On_no_channel (lc : ListenerConfig T) (w : World T) :
  Topic lc <> "" -> Channel lc = "" ->
  On X lc w = (Ret (Some ErrChannelRequired), [], w).
Proof.
  intros Ht Hc. unfold On. rewrite (len_string_not0 _ Ht), Hc. reflexivity.
Qed.

Lemma On_no_handler (lc : ListenerConfig T) (w : World T) :
  Topic lc <> "" -> Channel lc <> "" -> HandlerFunc_ lc = None ->
  On X lc w = (Ret (Some ErrHandlerRequired), [], w).
Proof.
  intros Ht Hc Hh. unfold On.
  rewrite (len_string_not0 _ Ht), (len_string_not0 _ Hc), Hh. reflexivity.
Qed.

Lemma invalid_cases (lc : ListenerConfig T) :
  ~ valid lc ->
  Topic lc = "" \/
  (Topic lc <> "" /\ Channel lc = "") \/
  (Topic lc <> "" /\ Channel lc <> "" /\ HandlerFunc_ lc = None).
Proof.
  intros H. unfold valid in H.
  destruct (string_dec (Topic lc) "") as [|Ht]; [left; assumption|].
  destruct (string_dec (Channel lc) "") as [|Hc]; [right; left; split; assumption|].
  destruct (HandlerFunc_ lc) eqn:Hh; [|right; right; repeat split; assumption].
  exfalso. apply H. repeat split; try assumption. discriminate.
Qed.

End Validation.

(** C5.  [On] validates fail-fast in the order topic, channel, handler: an
    empty topic gives [ErrTopicRequired]; a non-empty topic with an empty
    channel gives [ErrChannelRequired]; a non-empty topic and channel with a
    nil handler give [ErrHandlerRequired].  In each case [On] makes no call at
    all (the list of calls is empty) and leaves the world as it found it. *)
Theorem On_validation_order {T : Types} (X : Ops T)
        (lc : ListenerConfig T) (w : World T) :
  (Topic lc = "" ->
   On X lc w = (Ret (Some ErrTopicRequired), [], w)) /\
  (Topic lc <> "" -> Channel lc = "" ->
   On X lc w = (Ret (Some ErrChannelRequired), [], w)) /\
  (Topic lc <> "" -> Channel lc <> "" -> HandlerFunc_ lc = None ->
   On X lc w = (Ret (Some ErrHandlerRequired), [], w)).
Proof.
  split; [|split].
  - apply On_no_topic.
  - apply On_no_channel.
  - apply On_no_handler.
Qed.

Lemma On_validation_order_witness :
  On (scripted all_well) (config0 "" "" [] None 0 true) ["earlier"]
    = (Ret (Some ErrTopicRequired), [], ["earlier"]) /\
  On (scripted all_well) (config0 "orders" "" [] None 0 true) ["earlier"]
    = (Ret (Some ErrChannelRequired), [], ["earlier"]) /\
  On (scripted all_well) (config0 "orders" "billing" [] None 0 true) ["earlier"]
    = (Ret (Some ErrHandlerRequired), [], ["earlier"]).
Proof.
  split; [|split].
  - apply (proj1 (On_validation_order (scripted all_well)
                    (config0 "" "" [] None 0 true) ["earlier"])).
    reflexivity.
  - apply (proj1 (proj2 (On_validation_order (scripted all_well)
                    (config0 "orders" "" [] None 0 true) ["earlier"]))).
    + discriminate.
    + reflexivity.
  - apply (proj2 (proj2 (On_validation_order (scripted all_well)
                    (config0 "orders" "billing" [] None 0 true) ["earlier"]))).
    + discriminate.
    + discriminate.
    + reflexivity.
Defined.

(** C8.  For a configuration that fails validation, [On] returns an error,
    makes no call and leaves the world unchanged; calling it a second time with
    the same configuration returns the same error value, again with no
    call and no change to the world. *)
Theorem On_invalid_twice {T : Types} (X : Ops T)
        (lc : ListenerConfig T) (w : World T) :
  ~ valid lc ->
  exists e : goerror,
    On X lc w = (Ret (Some e), [], w) /\
    (first <- On X lc ;; second <- On X lc ;; ret (first, second)) w
      = (Ret (Some e, Some e), [], w).
Proof.
  intros H.
  assert (exists e, forall w', On X lc w' = (Ret (Some e), [], w')) as [e He].
  { destruct (invalid_cases lc H) as [Ht | [[Ht Hc] | (Ht & Hc & Hh)]].
    - exists ErrTopicRequired. intros w'. apply On_no_topic; assumption.
    - exists ErrChannelRequired. intros w'. apply On_no_channel; assumption.
    - exists ErrHandlerRequired. intros w'. apply On_no_handler; assumption. }
  exists e. split; [apply He|].
  unfold bind. rewrite !He. reflexivity.
Qed.

Lemma On_invalid_twice_witness :
  exists e : goerror,
    On (scripted all_well) (config0 "orders" "" ["disc:4161"] (Some pong) 2 true) []
      = (Ret (Some e), [], []) /\
    (first <- On (scripted all_well)
                 (config0 "orders" "" ["disc:4161"] (Some pong) 2 true) ;;
     second <- On (scripted all_well)
                  (config0 "orders" "" ["disc:4161"] (Some pong) 2 true) ;;
     ret (first, second)) []
      = (Ret (Some e, Some e), [], []).
Proof.
  apply (On_invalid_twice (scripted all_well)
           (config0 "orders" "" ["disc:4161"] (Some pong) 2 true) []).
  unfold valid. simpl. intros (_ & Hc & _). apply Hc. reflexivity.
Defined.

(** ** [On] as the composition of its stages *)

Section StagesOfOn.

Context {T : Types} (X : Ops T).

Lemma bind_ext_l {A B} (c c' : M T A) (k : A -> M T B) (w : World T) :
  c w = c' w -> bind c k w = bind c' k w.
Proof. intros H. unfold bind. rewrite H. reflexivity. Qed.

Lemma bind_ext_r {A B} (c : M T A) (k k' : A -> M T B) (w : World T) :
  (forall a w', k a w' = k' a w') -> bind c k w = bind c k' w.
Proof.
  intros H. unfold bind. destruct (c w) as [[[a|t] tr] w1]; [|reflexivity].
  rewrite H. reflexivity.
Qed.

Lemma fillDefaults_Lookup_nil (lc : ListenerConfig T) :
  Lookup lc = [] -> Lookup (fillDefaults lc) = ["localhost:4161"].
Proof.
  intros H. unfold fillDefaults. rewrite H. simpl.
  destruct (HandlerConcurrency _ =? 0)%Z; reflexivity.
Qed.

Lemma fillDefaults_Lookup_cons (lc : ListenerConfig T) :
  Lookup lc <> [] -> Lookup (fillDefaults lc) = Lookup lc.
Proof.
  intros H. unfold fillDefaults.
  destruct (len (Lookup lc) =? 0)%Z eqn:E.
  - apply len_0 in E. contradiction.
  - destruct (HandlerConcurrency lc =? 0)%Z; reflexivity.
Qed.

Lemma fillDefaults_HandlerConcurrency_0 (lc : ListenerConfig T) :
  HandlerConcurrency lc = 0 -> HandlerConcurrency (fillDefaults lc) = 1.
Proof.
  intros H. unfold fillDefaults.
  destruct (len (Lookup lc) =? 0)%Z; simpl; rewrite H; reflexivity.
Qed.

Lemma fillDefaults_HandlerConcurrency_set (lc : ListenerConfig T) :
  HandlerConcurrency lc <> 0 ->
  HandlerConcurrency (fillDefaults lc) = HandlerConcurrency lc.
Proof.
  intros H. apply Z.eqb_neq in H. unfold fillDefaults.
  destruct (len (Lookup lc) =? 0)%Z; simpl; rewrite H; reflexivity.
Qed.

Lemma fillDefaults_frame (lc : ListenerConfig T) :
  Topic (fillDefaults lc) = Topic lc /\
  Channel (fillDefaults lc) = Channel lc /\
  HandlerFunc_ (fillDefaults lc) = HandlerFunc_ lc /\
  AutoCreateTopic (fillDefaults lc) = AutoCreateTopic lc.
Proof.
  unfold fillDefaults.
  destruct (len (Lookup lc) =? 0)%Z; simpl;
    destruct (HandlerConcurrency lc =? 0)%Z; simpl; repeat split.
Qed.

Lemma fillDefaults_first (lc : ListenerConfig T) :
  exists a rest, Lookup (fillDefaults lc) = a :: rest /\
                 (Lookup lc = [] -> a = "localhost:4161") /\
                 (Lookup lc <> [] -> Lookup lc !! 0%nat = Some a).
Proof.
  destruct (Lookup lc) as [|a rest] eqn:E.
  - exists "localhost:4161", []. rewrite fillDefaults_Lookup_nil by assumption.
    repeat split. intros H. congruence.
  - exists a, rest. rewrite fillDefaults_Lookup_cons by congruence.
    rewrite E. repeat split. intros H. discriminate.
Qed.

(** [On] on a valid configuration is lines 48-70 run on the configuration
    with its defaults filled. *)
Lemma On_stages (lc : ListenerConfig T) (w : World T) :
  valid lc -> On X lc w = provisionAndSubscribe X (fillDefaults lc) w.
Proof.
  intros (Ht & Hc & Hh). unfold On.
  rewrite (len_string_not0 _ Ht), (len_string_not0 _ Hc), (is_nil_false _ Hh).
  cbv zeta. fold (fillDefaults lc). unfold provisionAndSubscribe.
  set (lc' := fillDefaults lc).
  apply bind_ext_l.
  destruct (AutoCreateTopic lc'); [|reflexivity].
  destruct (Lookup lc') as [|a rest]; [reflexivity|].
  change (index (a :: rest) 0) with (@ret T _ a).
  rewrite !bind_ret_l. unfold ensureTopic.
  apply bind_ext_r. intros [exist [e|]] w'; [reflexivity|].
  destruct exist; simpl; [reflexivity|]. apply bind_ret_l.
Qed.

(** With the first discovery address at hand, no slice is indexed any
    more. *)
Lemma provisionAndSubscribe_first (lc : ListenerConfig T) (a : string)
      (rest : list string) (w : World T) :
  Lookup lc = a :: rest ->
  provisionAndSubscribe X lc w =
  (err <- (if AutoCreateTopic lc then ensureTopic X a (Topic lc) else ret None) ;;
   match err with
   | Some e => ret (Some e)
   | None => subscribe X lc
   end) w.
Proof.
  intros H. unfold provisionAndSubscribe. apply bind_ext_l.
  destruct (AutoCreateTopic lc); [|reflexivity].
  rewrite H. change (index (a :: rest) 0) with (@ret T _ a).
  apply (bind_ret_l a (fun a0 => ensureTopic X a0 (Topic lc))).
Qed.

End StagesOfOn.

(** ** The topic provisioner (lines 50-59, [checkTopic], [createTopic]) *)

Section Provisioner.

Context {T : Types} (X : Ops T).

(** [checkTopic] makes one request and returns. *)
Lemma checkTopic_run (a t : string) (w : World T) :
  checkTopic X a t w =
  (Ret (checkTopic_result (http_Get X (lookupURL a t) w).1),
   [http_Get_call (lookupURL a t)],
   (http_Get X (lookupURL a t) w).2).
Proof.
  unfold checkTopic. fold (lookupURL a t). rewrite bind_call.
  destruct (http_Get X (lookupURL a t) w) as [[resp|err] w1]; simpl; [|reflexivity].
  destruct (StatusCode resp =? http_StatusOK)%Z; [reflexivity|].
  destruct (StatusCode resp =? http_StatusNotFound)%Z; reflexivity.
Qed.

Lemma createTopic_no_answer (t a : string) (w w1 : World T) (err : goerror) :
  http_Get X (nodesURL a) w = (inr err, w1) ->
  createTopic X t a w = (Ret (Some err), [http_Get_call (nodesURL a)], w1).
Proof.
  intros H. unfold createTopic. fold (nodesURL a). rewrite bind_call, H.
  reflexivity.
Qed.

Lemma createTopic_bad_status (t a : string) (w w1 : World T) (resp : Response) :
  http_Get X (nodesURL a) w = (inl resp, w1) ->
  StatusCode resp <> http_StatusOK ->
  createTopic X t a w =
  (Ret (Some (fmt_Errorf
                ("failed to get nsqd address from lookup: " +:+ Status resp))),
   [http_Get_call (nodesURL a)], w1).
Proof.
  intros H Hs. apply Z.eqb_neq in Hs.
  unfold createTopic. fold (nodesURL a). rewrite bind_call, H. simpl.
  rewrite Hs. reflexivity.
Qed.

Lemma createTopic_bad_body (t a : string) (w w1 : World T) (resp : Response)
      (err : goerror) :
  http_Get X (nodesURL a) w = (inl resp, w1) ->
  StatusCode resp = http_StatusOK ->
  json_Decode_nodes X (Body resp) = inr err ->
  createTopic X t a w = (Ret (Some err), [http_Get_call (nodesURL a)], w1).
Proof.
  intros H Hs Hd. apply Z.eqb_eq in Hs.
  unfold createTopic. fold (nodesURL a). rewrite bind_call, H. simpl.
  rewrite Hs, Hd. reflexivity.
Qed.

Lemma createTopic_no_nodes (t a : string) (w w1 : World T) (resp : Response) :
  http_Get X (nodesURL a) w = (inl resp, w1) ->
  StatusCode resp = http_StatusOK ->
  json_Decode_nodes X (Body resp) = inl [] ->
  createTopic X t a w =
  (Ret (Some (errors_New "no nsqd nodes found in lookup")),
   [http_Get_call (nodesURL a)], w1).
Proof.
  intros H Hs Hd. apply Z.eqb_eq in Hs.
  unfold createTopic. fold (nodesURL a). rewrite bind_call, H. simpl.
  rewrite Hs, Hd. reflexivity.
Qed.

Lemma createTopic_first_node (t a : string) (w w1 : World T) (resp : Response)
      (n0 : Node) (rest : list Node) :
  http_Get X (nodesURL a) w = (inl resp, w1) ->
  StatusCode resp = http_StatusOK ->
  json_Decode_nodes X (Body resp) = inl (n0 :: rest) ->
  createTopic X t a w =
  (Ret (createTopic_result (http_Post X (createURL n0 t) "" w1).1),
   [http_Get_call (nodesURL a); http_Post_call (createURL n0 t) ""],
   (http_Post X (createURL n0 t) "" w1).2).
Proof.
  intros H Hs Hd. apply Z.eqb_eq in Hs.
  unfold createTopic. fold (nodesURL a). rewrite bind_call, H. simpl.
  rewrite Hs, Hd. change (negb true) with false. cbv iota.
  replace (len (n0 :: rest) =? 0)%Z with false
    by (symmetry; unfold len; simpl; lia).
  change (index (n0 :: rest) 0) with (@ret T _ n0).
  rewrite bind_ret_l. fold (createURL n0 t). rewrite bind_call.
  destruct (http_Post X (createURL n0 t) "" w1) as [[r|err] w2]; simpl;
    [|reflexivity].
  destruct (StatusCode r =? http_StatusOK)%Z; reflexivity.
Qed.

Lemma provisioning_call_not_transport (a t : string) (e : Event T) :
  provisioning_call a t e -> is_transport_call e = false.
Proof.
  intros [-> | [-> | [n ->]]]; reflexivity.
Qed.

(** [createTopic] always returns, after one query and at most one command. *)
Lemma createTopic_returns (t a : string) (w : World T) :
  exists (e : error) (tr : list (Event T)) (w1 : World T),
    createTopic X t a w = (Ret e, tr, w1) /\
    Forall (provisioning_call a t) tr.
Proof.
  destruct (http_Get X (nodesURL a) w) as [[resp|err] w1] eqn:H.
  - destruct (Z.eq_dec (StatusCode resp) http_StatusOK) as [Hs|Hs].
    + destruct (json_Decode_nodes X (Body resp)) as [[|n0 rest]|err] eqn:Hd.
      * eexists _, _, _. split; [apply (createTopic_no_nodes _ _ _ _ _ H Hs Hd)|].
        constructor; [right; left; reflexivity | constructor].
      * eexists _, _, _.
        split; [apply (createTopic_first_node _ _ _ _ _ _ _ H Hs Hd)|].
        constructor; [right; left; reflexivity |].
        constructor; [right; right; exists n0; reflexivity | constructor].
      * eexists _, _, _. split; [apply (createTopic_bad_body _ _ _ _ _ _ H Hs Hd)|].
        constructor; [right; left; reflexivity | constructor].
    + eexists _, _, _. split; [apply (createTopic_bad_status _ _ _ _ _ H Hs)|].
      constructor; [right; left; reflexivity | constructor].
  - eexists _, _, _. split; [apply (createTopic_no_answer _ _ _ _ _ H)|].
    constructor; [right; left; reflexivity | constructor].
Qed.

(** [ensureTopic] is [checkTopic], then [createTopic] when the topic is
    reported absent. *)
Lemma ensureTopic_run (a t : string) (w : World T) :
  ensureTopic X a t w =
  match checkTopic_result (http_Get X (lookupURL a t) w).1 with
  | (_, Some e) =>
      (Ret (Some e), [http_Get_call (lookupURL a t)],
       (http_Get X (lookupURL a t) w).2)
  | (true, None) =>
      (Ret None, [http_Get_call (lookupURL a t)],
       (http_Get X (lookupURL a t) w).2)
  | (false, None) =>
      let '(r, tr, w2) := createTopic X t a (http_Get X (lookupURL a t) w).2 in
      (r, http_Get_call (lookupURL a t) :: tr, w2)
  end.
Proof.
  unfold ensureTopic. rewrite (bind_run _ _ _ _ _ _ (checkTopic_run a t w)).
  destruct (checkTopic_result _) as [exist [e|]]; [destruct exist; reflexivity|].
  destruct exist; simpl; [reflexivity|].
  destruct (createTopic X t a _) as [[r tr] w2]. reflexivity.
Qed.

(** [ensureTopic] always returns, and calls nothing but the discovery
    service at [a] and a node. *)
Lemma ensureTopic_returns (a t : string) (w : World T) :
  exists (e : error) (tr : list (Event T)) (w1 : World T),
    ensureTopic X a t w = (Ret e, tr, w1) /\
    Forall (provisioning_call a t) tr.
Proof.
  rewrite ensureTopic_run.
  destruct (checkTopic_result _) as [exist [e|]].
  - eexists _, _, _. split; [destruct exist; reflexivity|].
    constructor; [left; reflexivity | constructor].
  - destruct exist.
    + eexists _, _, _. split; [reflexivity|].
      constructor; [left; reflexivity | constructor].
    + destruct (createTopic_returns t a (http_Get X (lookupURL a t) w).2)
        as (e & tr & w1 & Hc & Htr).
      rewrite Hc. eexists _, _, _. split; [reflexivity|].
      constructor; [left; reflexivity | assumption].
Qed.

End Provisioner.

(** ** Starting the subscription (lines 62-70) *)

Section Subscription.

Context {T : Types} (X : Ops T).

Lemma subscribe_no_consumer (lc : ListenerConfig T) (w w1 : World T) (e : goerror) :
  nsq_NewConsumer X (Topic lc) (Channel lc) (newListenerConfig X lc) w = (inr e, w1) ->
  subscribe X lc w =
  (Ret (Some e),
   [NewConsumer_call (Topic lc) (Channel lc) (newListenerConfig X lc)], w1).
Proof.
  intros H. unfold subscribe. cbv zeta. rewrite bind_call, H. reflexivity.
Qed.

Lemma subscribe_consumer (lc : ListenerConfig T) (w w1 : World T) (c : Consumer T) :
  nsq_NewConsumer X (Topic lc) (Channel lc) (newListenerConfig X lc) w = (inl c, w1) ->
  let w2 := AddConcurrentHandlers X c (handleMessage X lc) (HandlerConcurrency lc) w1 in
  subscribe X lc w =
  (Ret (ConnectToNSQLookupds X c (Lookup lc) w2).1,
   [NewConsumer_call (Topic lc) (Channel lc) (newListenerConfig X lc);
    AddConcurrentHandlers_call (HandlerConcurrency lc);
    ConnectToNSQLookupds_call (Lookup lc)],
   (ConnectToNSQLookupds X c (Lookup lc) w2).2).
Proof.
  intros H w2. unfold subscribe. cbv zeta. rewrite bind_call, H. simpl.
  rewrite bind_call. simpl. fold w2. unfold call.
  destruct (ConnectToNSQLookupds X c (Lookup lc) w2) as [e w3]. reflexivity.
Qed.

Lemma subscribe_returns (lc : ListenerConfig T) (w : World T) :
  exists (e : error) (tr : list (Event T)) (w1 : World T),
    subscribe X lc w = (Ret e, tr, w1) /\
    Forall (subscription_call X lc) tr.
Proof.
  destruct (nsq_NewConsumer X (Topic lc) (Channel lc) (newListenerConfig X lc) w)
    as [[c|e] w1] eqn:H.
  - eexists _, _, _. split; [apply (subscribe_consumer _ _ _ _ H)|].
    constructor; [left; reflexivity|].
    constructor; [right; left; reflexivity|].
    constructor; [right; right; reflexivity | constructor].
  - eexists _, _, _. split; [apply (subscribe_no_consumer _ _ _ _ H)|].
    constructor; [left; reflexivity | constructor].
Qed.

Lemma subscription_call_transport (lc : ListenerConfig T) (e : Event T) :
  subscription_call X lc e -> is_transport_call e = true.
Proof.
  intros [-> | [-> | ->]]; reflexivity.
Qed.

(** Lines 48-70 in one step: the provisioner's outcome decides whether the
    subscription is started. *)
Lemma provisionAndSubscribe_run (lc : ListenerConfig T) (a : string)
      (rest : list string) (w : World T) :
  Lookup lc = a :: rest ->
  provisionAndSubscribe X lc w =
  if AutoCreateTopic lc then
    match ensureTopic X a (Topic lc) w with
    | (Ret (Some e), tr, w1) => (Ret (Some e), tr, w1)
    | (Ret None, tr, w1) =>
        let '(r, tr', w2) := subscribe X lc w1 in (r, tr ++ tr', w2)
    | (Panic t, tr, w1) => (Panic t, tr, w1)
    end
  else subscribe X lc w.
Proof.
  intros H. rewrite (provisionAndSubscribe_first X lc a rest w H).
  destruct (AutoCreateTopic lc).
  - unfold bind. destruct (ensureTopic X a (Topic lc) w) as [[[[e|]|t] tr] w1];
      try reflexivity.
    simpl. rewrite app_nil_r. reflexivity.
  - rewrite bind_ret_l. reflexivity.
Qed.

(** Every call of lines 48-70 is a provisioning call at the first discovery
    address or a call of the subscription. *)
Lemma provisionAndSubscribe_calls (lc : ListenerConfig T) (a : string)
      (rest : list string) (w : World T) :
  Lookup lc = a :: rest ->
  Forall (fun e => provisioning_call a (Topic lc) e \/ subscription_call X lc e)
         (trace_of (provisionAndSubscribe X lc w)).
Proof.
  intros H. rewrite (provisionAndSubscribe_run lc a rest w H).
  destruct (subscribe_returns lc w) as (e0 & tr0 & w0 & Hs0 & Htr0).
  destruct (AutoCreateTopic lc).
  - destruct (ensureTopic_returns X a (Topic lc) w) as (e & tr & w1 & He & Htr).
    rewrite He.
    destruct (subscribe_returns lc w1) as (e' & tr' & w2 & Hs & Htr').
    destruct e as [e|].
    + unfold trace_of. simpl. eapply Forall_impl; [exact Htr|]. intros; left; assumption.
    + rewrite Hs. unfold trace_of. simpl. apply Forall_app. split.
      * eapply Forall_impl; [exact Htr|]. intros; left; assumption.
      * eapply Forall_impl; [exact Htr'|]. intros; right; assumption.
  - rewrite Hs0. unfold trace_of. simpl.
    eapply Forall_impl; [exact Htr0|]. intros; right; assumption.
Qed.

(** On a valid configuration with [AutoCreateTopic] set, [On] is the
    provisioner at the first discovery address, then the subscription. *)
Lemma On_runs_ensureTopic (lc : ListenerConfig T) (a : string)
      (rest : list string) (w : World T) :
  valid lc -> AutoCreateTopic lc = true ->
  Lookup (fillDefaults lc) = a :: rest ->
  On X lc w =
  (err <- ensureTopic X a (Topic lc) ;;
   match err with
   | Some e => ret (Some e)
   | None => subscribe X (fillDefaults lc)
   end) w.
Proof.
  intros Hv Ha Hl. rewrite (On_stages X lc w Hv).
  rewrite (provisionAndSubscribe_first X _ a rest w Hl).
  destruct (fillDefaults_frame lc) as (Ht & _ & _ & Hauto).
  rewrite Hauto, Ha, Ht. reflexivity.
Qed.

End Subscription.

(** C2.  The existence check of the provisioner is a three-way branch on the
    status of the answer to the lookup query, for every topic and discovery
    address: on 200 [ensureTopic] returns nil after that one query (no node
    query, no create-topic command); on 404 it goes on with [createTopic],
    whose calls and result follow; on any other status it returns an error
    after that one query, so [/nodes] is never queried and no create-topic
    command is issued.  [On] runs this provisioner when [AutoCreateTopic] is
    set. *)
Theorem ensureTopic_three_way {T : Types} (X : Ops T) (a t : string)
        (w w1 : World T) (resp : Response) :
  http_Get X (lookupURL a t) w = (inl resp, w1) ->
  (StatusCode resp = 200 ->
   ensureTopic X a t w = (Ret None, [http_Get_call (lookupURL a t)], w1)) /\
  (StatusCode resp = 404 ->
   ensureTopic X a t w =
   let '(r, tr, w2) := createTopic X t a w1 in
   (r, http_Get_call (lookupURL a t) :: tr, w2)) /\
  (StatusCode resp <> 200 -> StatusCode resp <> 404 ->
   ensureTopic X a t w =
   (Ret (Some (fmt_Errorf ("unexpected status code: " +:+ itoa (StatusCode resp)))),
    [http_Get_call (lookupURL a t)], w1)) /\
  (forall (lc : ListenerConfig T) (rest : list string),
     valid lc -> AutoCreateTopic lc = true ->
     Lookup (fillDefaults lc) = a :: rest -> Topic lc = t ->
     On X lc w =
     (err <- ensureTopic X a t ;;
      match err with
      | Some e => ret (Some e)
      | None => subscribe X (fillDefaults lc)
      end) w).
Proof.
  intros H. rewrite ensureTopic_run, H. simpl.
  split; [|split; [|split]].
  - intros Hs. rewrite Hs. reflexivity.
  - intros Hs. rewrite Hs. reflexivity.
  - intros H2 H4. apply Z.eqb_neq in H2, H4.
    unfold http_StatusOK, http_StatusNotFound. rewrite H2, H4. reflexivity.
  - intros lc rest Hv Ha Hl <-. apply (On_runs_ensureTopic X lc a rest w Hv Ha Hl).
Qed.

Lemma ensureTopic_three_way_witness :
  ensureTopic topic_known "disc:4161" "orders" []
  = (Ret None,
     [http_Get_call "http://disc:4161/lookup?topic=orders"],
     ["GET http://disc:4161/lookup?topic=orders"]) /\
  ensureTopic topic_unknown "disc:4161" "orders" []
  = (Ret None,
     [http_Get_call "http://disc:4161/lookup?topic=orders";
      http_Get_call "http://disc:4161/nodes";
      http_Post_call "http://n1:4150/topic/create?topic=orders" ""],
     ["GET http://disc:4161/lookup?topic=orders";
      "GET http://disc:4161/nodes";
      "POST http://n1:4150/topic/create?topic=orders"]) /\
  ensureTopic lookup_broken "disc:4161" "orders" []
  = (Ret (Some (fmt_Errorf "unexpected status code: 500")),
     [http_Get_call "http://disc:4161/lookup?topic=orders"],
     ["GET http://disc:4161/lookup?topic=orders"]).
Proof.
  split; [|split].
  - refine (proj1 (ensureTopic_three_way topic_known "disc:4161" "orders" []
                     ["GET http://disc:4161/lookup?topic=orders"]
                     (response 200 "200 OK") _) _); reflexivity.
  - refine (proj1 (proj2 (ensureTopic_three_way topic_unknown "disc:4161" "orders"
                     [] ["GET http://disc:4161/lookup?topic=orders"] (response 404 "404 Not Found") _)) _); reflexivity.
  - refine (proj1 (proj2 (proj2 (ensureTopic_three_way lookup_broken "disc:4161"
                     "orders" [] ["GET http://disc:4161/lookup?topic=orders"] (response 500 "500 Internal Server Error") _)))
              _ _);
      first [reflexivity | discriminate].
Defined.

(** C3, as the code has it.  For every creation attempt: a node query that
    gets no answer gives the transport's error; an answer with a status other
    than 200 gives an error with its status text; a 200 answer whose body does
    not decode gives the decoder's error; a 200 answer carrying an empty node
    list gives the error "no nsqd nodes found in lookup"; in these four cases
    no create-topic command is issued.  A 200 answer carrying a non-empty list
    makes [createTopic] issue exactly one create-topic POST, to the first
    node's [broadcast_address:tcp_port], and return nil if and only if that
    POST is answered with status 200; answered with another status, the error
    carries the broker's status text; not answered, the error is the
    transport's. *)
Theorem createTopic_every_path {T : Types} (X : Ops T) (t a : string) (w : World T) :
  let answer := (http_Get X (nodesURL a) w).1 in
  let after := (http_Get X (nodesURL a) w).2 in
  let run := createTopic X t a w in
  (forall err, answer = inr err ->
     run = (Ret (Some err), [http_Get_call (nodesURL a)], after)) /\
  (forall resp, answer = inl resp -> StatusCode resp <> 200 ->
     run = (Ret (Some (fmt_Errorf
                         ("failed to get nsqd address from lookup: " +:+ Status resp))),
            [http_Get_call (nodesURL a)], after)) /\
  (forall resp err, answer = inl resp -> StatusCode resp = 200 ->
     json_Decode_nodes X (Body resp) = inr err ->
     run = (Ret (Some err), [http_Get_call (nodesURL a)], after)) /\
  (forall resp, answer = inl resp -> StatusCode resp = 200 ->
     json_Decode_nodes X (Body resp) = inl [] ->
     run = (Ret (Some (errors_New "no nsqd nodes found in lookup")),
            [http_Get_call (nodesURL a)], after)) /\
  (forall resp n0 rest, answer = inl resp -> StatusCode resp = 200 ->
     json_Decode_nodes X (Body resp) = inl (n0 :: rest) ->
     let url := "http://" +:+ (Address n0 +:+ ":" +:+ itoa (TCPPort n0))
                +:+ "/topic/create?topic=" +:+ t in
     let post := http_Post X url "" after in
     trace_of run = [http_Get_call (nodesURL a); http_Post_call url ""] /\
     create_commands (trace_of run) = [url] /\
     world_of run = post.2 /\
     (outcome_of run = Ret None <->
      exists r, post.1 = inl r /\ StatusCode r = 200) /\
     (forall r, post.1 = inl r -> StatusCode r <> 200 ->
        outcome_of run
        = Ret (Some (fmt_Errorf ("failed to create topic: " +:+ Status r)))) /\
     (forall err, post.1 = inr err -> outcome_of run = Ret (Some err))).
Proof.
  intros answer after run. subst answer after run.
  destruct (http_Get X (nodesURL a) w) as [ans w1] eqn:H. cbn [fst snd].
  split; [|split; [|split; [|split]]].
  - intros err ->. apply (createTopic_no_answer X t a w w1 err H).
  - intros resp -> Hs. apply (createTopic_bad_status X t a w w1 resp H Hs).
  - intros resp err -> Hs Hd. apply (createTopic_bad_body X t a w w1 resp err H Hs Hd).
  - intros resp -> Hs Hd. apply (createTopic_no_nodes X t a w w1 resp H Hs Hd).
  - intros resp n0 rest -> Hs Hd. cbv zeta.
    rewrite (createTopic_first_node X t a w w1 resp n0 rest H Hs Hd).
    fold (createURL n0 t). set (post := http_Post X (createURL n0 t) "" w1).
    unfold trace_of, world_of, outcome_of. simpl.
    split; [reflexivity|]. split; [reflexivity|]. split; [reflexivity|].
    destruct (post.1) as [r|err]; simpl.
    + destruct (StatusCode r =? http_StatusOK)%Z eqn:E.
      * apply Z.eqb_eq in E. split; [|split].
        -- split; [intros _; exists r; split; [reflexivity | exact E] | reflexivity].
        -- intros r' Hr Hne. injection Hr as <-. contradiction.
        -- intros err Hr. discriminate.
      * apply Z.eqb_neq in E. split; [|split].
        -- split; [discriminate|].
           intros (r' & Hr & Hs'). injection Hr as <-. contradiction.
        -- intros r' Hr _. injection Hr as <-. reflexivity.
        -- intros err Hr. discriminate.
    + split; [|split].
      * split; [discriminate|]. intros (r' & Hr & _). discriminate.
      * intros r' Hr. discriminate.
      * intros err' Hr. injection Hr as <-. reflexivity.
Qed.

Lemma createTopic_every_path_witness :
  createTopic discovery_unreachable "orders" "disc:4161" []
  = (Ret (Some (foreign_error "connection refused")),
     [http_Get_call "http://disc:4161/nodes"], ["GET http://disc:4161/nodes"]) /\
  createTopic nodes_refused "orders" "disc:4161" []
  = (Ret (Some (fmt_Errorf
                  "failed to get nsqd address from lookup: 503 Service Unavailable")),
     [http_Get_call "http://disc:4161/nodes"], ["GET http://disc:4161/nodes"]) /\
  createTopic nodes_garbled "orders" "disc:4161" []
  = (Ret (Some (foreign_error "json: cannot unmarshal object into Go value")),
     [http_Get_call "http://disc:4161/nodes"], ["GET http://disc:4161/nodes"]) /\
  createTopic no_nodes "orders" "disc:4161" []
  = (Ret (Some (errors_New "no nsqd nodes found in lookup")),
     [http_Get_call "http://disc:4161/nodes"], ["GET http://disc:4161/nodes"]) /\
  (trace_of (createTopic two_nodes "orders" "disc:4161" [])
   = [http_Get_call "http://disc:4161/nodes";
      http_Post_call "http://n1:4150/topic/create?topic=orders" ""] /\
   outcome_of (createTopic two_nodes "orders" "disc:4161" []) = Ret None) /\
  outcome_of (createTopic create_refused "orders" "disc:4161" [])
  = Ret (Some (fmt_Errorf "failed to create topic: 500 Internal Server Error")) /\
  outcome_of (createTopic create_unreachable "orders" "disc:4161" [])
  = Ret (Some (foreign_error "connection refused")).
Proof.
  destruct (createTopic_every_path discovery_unreachable "orders" "disc:4161" [])
    as (Hnone & _).
  destruct (createTopic_every_path nodes_refused "orders" "disc:4161" [])
    as (_ & Hbad & _).
  destruct (createTopic_every_path nodes_garbled "orders" "disc:4161" [])
    as (_ & _ & Hbody & _).
  destruct (createTopic_every_path no_nodes "orders" "disc:4161" [])
    as (_ & _ & _ & Hempty & _).
  destruct (createTopic_every_path two_nodes "orders" "disc:4161" [])
    as (_ & _ & _ & _ & Htwo).
  destruct (createTopic_every_path create_refused "orders" "disc:4161" [])
    as (_ & _ & _ & _ & Hrefused).
  destruct (createTopic_every_path create_unreachable "orders" "disc:4161" [])
    as (_ & _ & _ & _ & Hunreach).
  split; [apply (Hnone (foreign_error "connection refused")); reflexivity|].
  split; [apply (Hbad (response 503 "503 Service Unavailable"));
          [reflexivity | discriminate]|].
  split; [apply (Hbody (response 200 "200 OK")
                       (foreign_error "json: cannot unmarshal object into Go value"));
          reflexivity|].
  split; [apply (Hempty (response 200 "200 OK")); reflexivity|].
  split; [|split].
  - destruct (Htwo (response 200 "200 OK") n1 [n2] eq_refl eq_refl eq_refl)
      as (Htr & _ & _ & Hok & _).
    split; [exact Htr|].
    apply Hok. exists (response 200 "200 OK"). split; reflexivity.
  - destruct (Hrefused (response 200 "200 OK") n1 [n2] eq_refl eq_refl eq_refl)
      as (_ & _ & _ & _ & Hstatus & _).
    apply (Hstatus (response 500 "500 Internal Server Error"));
      [reflexivity | discriminate].
  - destruct (Hunreach (response 200 "200 OK") n1 [n2] eq_refl eq_refl eq_refl)
      as (_ & _ & _ & _ & _ & Herr).
    apply (Herr (foreign_error "connection refused")). reflexivity.
Defined.

(** The creation rule as stated fails on the code in three ways, each a
    case of its "otherwise" in which no command, or no status text, exists:
    a 200 answer whose body does not decode (line 137) and a node query that
    gets no answer (line 122) issue no create-topic command; a command that
    gets no answer (line 148) returns the transport's error. *)
Lemma creation_as_stated_fails :
  ~ creation_as_stated nodes_garbled "orders" "disc:4161" [] /\
  ~ creation_as_stated discovery_unreachable "orders" "disc:4161" [] /\
  ~ creation_as_stated create_unreachable "orders" "disc:4161" [].
Proof.
  split; [|split].
  - intros (_ & _ & H).
    destruct H as (url & Hcmd & _).
    + intros (resp & Hr & Hs). injection Hr as <-. apply Hs. reflexivity.
    + intros (resp & Hr & _ & Hd). discriminate.
    + discriminate.
  - intros (_ & _ & H).
    destruct H as (url & Hcmd & _).
    + intros (resp & Hr & _). discriminate.
    + intros (resp & Hr & _). discriminate.
    + discriminate.
  - intros (_ & _ & H).
    destruct H as (url & Hcmd & _ & _ & Herr).
    + intros (resp & Hr & Hs). injection Hr as <-. apply Hs. reflexivity.
    + intros (resp & Hr & _ & Hd). discriminate.
    + injection Hcmd as <-.
      destruct Herr as (r & Hr & _); [discriminate | discriminate].
Qed.

(** ** Defaults and the order of the stages *)

Lemma valid_dec {T : Types} (lc : ListenerConfig T) : {valid lc} + {~ valid lc}.
Proof.
  unfold valid.
  destruct (string_dec (Topic lc) "") as [Ht|Ht]; [right; tauto|].
  destruct (string_dec (Channel lc) "") as [Hc|Hc]; [right; tauto|].
  destruct (HandlerFunc_ lc) as [h|]; [left | right]; [|tauto].
  repeat split; try assumption. discriminate.
Qed.

Lemma On_invalid {T : Types} (X : Ops T) (lc : ListenerConfig T) (w : World T) :
  ~ valid lc -> exists e, On X lc w = (Ret (Some e), [], w).
Proof.
  intros H. destruct (invalid_cases lc H) as [Ht | [[Ht Hc] | (Ht & Hc & Hh)]].
  - exists ErrTopicRequired. apply On_no_topic; assumption.
  - exists ErrChannelRequired. apply On_no_channel; assumption.
  - exists ErrHandlerRequired. apply On_no_handler; assumption.
Qed.

(** C7.  On a configuration that passes validation, [On] fills the defaults
    before anything else: all that follows (lines 48-70) runs on the
    configuration in which an empty [Lookup] has become ["localhost:4161"]
    and a [HandlerConcurrency] of 0 has become 1, a non-empty list and a
    non-zero concurrency being left as they are; these are the values the
    consumer is given. *)
Theorem On_fills_defaults {T : Types} (X : Ops T)
        (lc : ListenerConfig T) (w : World T) :
  valid lc ->
  let lc' := fillDefaults lc in
  On X lc w = provisionAndSubscribe X lc' w /\
  (Lookup lc = [] -> Lookup lc' = ["localhost:4161"]) /\
  (Lookup lc <> [] -> Lookup lc' = Lookup lc) /\
  (HandlerConcurrency lc = 0 -> HandlerConcurrency lc' = 1) /\
  (HandlerConcurrency lc <> 0 -> HandlerConcurrency lc' = HandlerConcurrency lc) /\
  (forall addrs, In (ConnectToNSQLookupds_call addrs) (trace_of (On X lc w)) ->
                 addrs = Lookup lc') /\
  (forall n, In (AddConcurrentHandlers_call n) (trace_of (On X lc w)) ->
             n = HandlerConcurrency lc').
Proof.
  intros Hv lc'.
  split; [apply On_stages; assumption|].
  split; [apply fillDefaults_Lookup_nil|].
  split; [apply fillDefaults_Lookup_cons|].
  split; [apply fillDefaults_HandlerConcurrency_0|].
  split; [apply fillDefaults_HandlerConcurrency_set|].
  destruct (fillDefaults_first lc) as (a & rest & Hl & _).
  pose proof (provisionAndSubscribe_calls X lc' a rest w Hl) as Hcalls.
  unfold lc' in Hcalls. rewrite <- (On_stages X lc w Hv) in Hcalls.
  rewrite Forall_forall in Hcalls.
  split.
  - intros addrs Hin. apply list_elem_of_In in Hin.
    destruct (Hcalls _ Hin) as [[Hp | [Hp | [n Hp]]] | [Hs | [Hs | Hs]]];
      try discriminate.
    injection Hs as ->. reflexivity.
  - intros n Hin. apply list_elem_of_In in Hin.
    destruct (Hcalls _ Hin) as [[Hp | [Hp | [n' Hp]]] | [Hs | [Hs | Hs]]];
      try discriminate.
    injection Hs as ->. reflexivity.
Qed.

Lemma On_fills_defaults_witness :
  On all_well_ops (config0 "orders" "billing" [] (Some pong) 0 false) []
  = provisionAndSubscribe all_well_ops
      (config0 "orders" "billing" ["localhost:4161"] (Some pong) 1 false) [] /\
  Lookup (fillDefaults (config0 "orders" "billing" [] (Some pong) 0 false))
  = ["localhost:4161"] /\
  HandlerConcurrency (fillDefaults (config0 "orders" "billing" [] (Some pong) 0 false))
  = 1 /\
  Lookup (fillDefaults (config0 "orders" "billing" ["a:1"; "b:2"] (Some pong) 4 false))
  = ["a:1"; "b:2"] /\
  HandlerConcurrency
    (fillDefaults (config0 "orders" "billing" ["a:1"; "b:2"] (Some pong) 4 false))
  = 4.
Proof.
  assert (valid (config0 "orders" "billing" [] (Some pong) 0 false)) as Hv
    by (repeat split; discriminate).
  assert (valid (config0 "orders" "billing" ["a:1"; "b:2"] (Some pong) 4 false)) as Hv'
    by (repeat split; discriminate).
  destruct (On_fills_defaults all_well_ops _ [] Hv) as (Hon & Hl & _ & Hc & _).
  destruct (On_fills_defaults all_well_ops _ [] Hv') as (_ & _ & Hl' & _ & Hc' & _).
  split; [exact Hon|].
  split; [apply Hl; reflexivity|].
  split; [apply Hc; reflexivity|].
  split; [apply Hl'; discriminate|].
  apply Hc'; discriminate.
Defined.

(** C6.  With [AutoCreateTopic] set, [On] runs the provisioner first, at the
    first discovery address only (the first of the caller's list, or the
    default when that list is empty), and every network call it makes is one
    of the provisioner's at that address.  An error of the provisioner, from
    the existence check or from the creation, is what [On] returns, after the
    provisioner's calls and nothing else.  A call to the transport (consumer
    creation, registration of the handler, connect) is made only when the
    configuration is valid and the provisioner has returned nil, and comes
    after all of the provisioner's calls. *)
Theorem On_provisions_before_subscribing {T : Types} (X : Ops T)
        (lc : ListenerConfig T) (w : World T) :
  AutoCreateTopic lc = true ->
  (valid lc ->
   exists (a : string) (rest : list string),
     Lookup (fillDefaults lc) = a :: rest /\
     (Lookup lc = [] -> a = "localhost:4161") /\
     (Lookup lc <> [] -> Lookup lc !! 0%nat = Some a) /\
     On X lc w =
     (err <- ensureTopic X a (Topic lc) ;;
      match err with
      | Some e => ret (Some e)
      | None => subscribe X (fillDefaults lc)
      end) w /\
     (forall e tr w1,
        ensureTopic X a (Topic lc) w = (Ret (Some e), tr, w1) ->
        On X lc w = (Ret (Some e), tr, w1) /\
        Forall (fun ev => is_transport_call ev = false) tr) /\
     Forall (fun ev => is_http_call ev = true -> provisioning_call a (Topic lc) ev)
            (trace_of (On X lc w))) /\
  (forall ev, In ev (trace_of (On X lc w)) -> is_transport_call ev = true ->
     valid lc /\
     exists (a : string) (rest : list string) (trp : list (Event T)) (w1 : World T),
       Lookup (fillDefaults lc) = a :: rest /\
       ensureTopic X a (Topic lc) w = (Ret None, trp, w1) /\
       Forall (fun ev' => is_transport_call ev' = false) trp /\
       trace_of (On X lc w) = trp ++ trace_of (subscribe X (fillDefaults lc) w1)).
Proof.
  intros Hauto.
  assert (valid lc ->
          exists a rest, Lookup (fillDefaults lc) = a :: rest /\
            (Lookup lc = [] -> a = "localhost:4161") /\
            (Lookup lc <> [] -> Lookup lc !! 0%nat = Some a) /\
            On X lc w =
            (err <- ensureTopic X a (Topic lc) ;;
             match err with
             | Some e => ret (Some e)
             | None => subscribe X (fillDefaults lc)
             end) w) as Hrun.
  { intros Hv. destruct (fillDefaults_first lc) as (a & rest & Hl & Hnil & Hcons).
    exists a, rest. repeat split; try assumption.
    apply (On_runs_ensureTopic X lc a rest w Hv Hauto Hl). }
  split.
  - intros Hv. destruct (Hrun Hv) as (a & rest & Hl & Hnil & Hcons & Hon).
    exists a, rest.
    split; [exact Hl|]. split; [exact Hnil|]. split; [exact Hcons|].
    split; [exact Hon|]. split.
    + intros e tr w1 He. split.
      * rewrite Hon. unfold bind. rewrite He. simpl. rewrite app_nil_r. reflexivity.
      * destruct (ensureTopic_returns X a (Topic lc) w)
          as (e' & tr' & w' & He' & Htr).
        rewrite He' in He. injection He as _ <- _.
        eapply Forall_impl; [exact Htr|].
        intros ev. apply provisioning_call_not_transport.
    + pose proof (provisionAndSubscribe_calls X (fillDefaults lc) a rest w Hl) as Hc.
      rewrite <- (On_stages X lc w Hv) in Hc.
      destruct (fillDefaults_frame lc) as (Ht & _). rewrite Ht in Hc.
      eapply Forall_impl; [exact Hc|].
      intros ev [Hp | Hs] Hhttp; [exact Hp|].
      destruct Hs as [-> | [-> | ->]]; discriminate.
  - intros ev Hin Htransport.
    destruct (valid_dec lc) as [Hv | Hnv].
    + split; [exact Hv|].
      destruct (Hrun Hv) as (a & rest & Hl & _ & _ & Hon).
      destruct (ensureTopic_returns X a (Topic lc) w) as (e & trp & w1 & He & Htr).
      assert (Forall (fun ev' => is_transport_call ev' = false) trp) as Hno.
      { eapply Forall_impl; [exact Htr|].
        intros ev'. apply provisioning_call_not_transport. }
      destruct e as [e|].
      * exfalso. rewrite Hon in Hin. unfold bind in Hin. rewrite He in Hin.
        unfold trace_of in Hin. simpl in Hin. rewrite app_nil_r in Hin.
        rewrite Forall_forall in Hno. apply list_elem_of_In in Hin.
        specialize (Hno _ Hin). congruence.
      * exists a, rest, trp, w1. repeat split; try assumption.
        rewrite Hon. unfold bind. rewrite He.
        destruct (subscribe X (fillDefaults lc) w1) as [[r tr'] w2]. reflexivity.
    + exfalso. destruct (On_invalid X lc w Hnv) as (e & He).
      rewrite He in Hin. exact Hin.
Qed.

Lemma On_provisions_before_subscribing_witness :
  On lookup_broken (listener pong) []
  = (Ret (Some (fmt_Errorf "unexpected status code: 500")),
     [http_Get_call "http://disc:4161/lookup?topic=orders"],
     ["GET http://disc:4161/lookup?topic=orders"]).
Proof.
  assert (valid (listener pong)) as Hv by (repeat split; discriminate).
  destruct (proj1 (On_provisions_before_subscribing lookup_broken (listener pong) []
                     eq_refl) Hv)
    as (a & rest & Hl & _ & _ & _ & Herr & _).
  injection Hl as <- <-.
  apply (Herr (fmt_Errorf "unexpected status code: 500")
              [http_Get_call "http://disc:4161/lookup?topic=orders"]
              ["GET http://disc:4161/lookup?topic=orders"]).
  reflexivity.
Defined.

(** ** The dispatch callback (lines 73-96) *)

Section Dispatch.

Context {T : Types} (X : Ops T).

Variables (lc : ListenerConfig T) (message : nsq_Message) (w : World T).

Lemma handleMessage_parse_error (m : Message) (e : goerror) :
  json_Unmarshal X (msg_Body message) (undecoded message) = (m, Some e) ->
  handleMessage X lc message w = (Ret (Some e), [], w).
Proof.
  intros H. unfold handleMessage. fold (undecoded message). rewrite H. reflexivity.
Qed.

Section Parsed.

Variables (m : Message) (h : HandlerFunc T).
Hypothesis Hparse :
  json_Unmarshal X (msg_Body message) (undecoded message) = (m, None).
Hypothesis Hhandler : HandlerFunc_ lc = Some h.

Lemma handleMessage_handler_error (m' : Message) (res : iface T) (e : goerror)
      (w1 : World T) :
  h m w = ((m', res, Some e), w1) ->
  handleMessage X lc message w = (Ret (Some e), [HandlerFunc_call m], w1).
Proof.
  intros H. unfold handleMessage. fold (undecoded message). rewrite Hparse.
  unfold call_HandlerFunc. rewrite Hhandler, bind_call, H. reflexivity.
Qed.

Lemma handleMessage_no_reply (m' : Message) (res : iface T) (w1 : World T) :
  h m w = ((m', res, None), w1) ->
  ReplyTo m' = "" ->
  handleMessage X lc message w = (Ret None, [HandlerFunc_call m], w1).
Proof.
  intros H Hr. unfold handleMessage. fold (undecoded message). rewrite Hparse.
  unfold call_HandlerFunc. rewrite Hhandler, bind_call, H. simpl.
  rewrite Hr. reflexivity.
Qed.

Lemma handleMessage_no_emitter (m' : Message) (res : iface T) (e : goerror)
      (w1 w2 : World T) :
  h m w = ((m', res, None), w1) ->
  ReplyTo m' <> "" ->
  NewEmitter X (EmitterConfig_zero X) w1 = (inr e, w2) ->
  handleMessage X lc message w =
  (Ret (Some e), [HandlerFunc_call m; NewEmitter_call (EmitterConfig_zero X)], w2).
Proof.
  intros H Hr He. apply String.eqb_neq in Hr.
  unfold handleMessage. fold (undecoded message). rewrite Hparse.
  unfold call_HandlerFunc. rewrite Hhandler, bind_call, H. simpl.
  rewrite Hr, bind_call, He. reflexivity.
Qed.

Lemma handleMessage_reply (m' : Message) (res : iface T) (em : Emitter T)
      (w1 w2 : World T) :
  h m w = ((m', res, None), w1) ->
  ReplyTo m' <> "" ->
  NewEmitter X (EmitterConfig_zero X) w1 = (inl em, w2) ->
  handleMessage X lc message w =
  (Ret (Emit X em (ReplyTo m') res w2).1,
   [HandlerFunc_call m; NewEmitter_call (EmitterConfig_zero X);
    Emit_call (ReplyTo m') res],
   (Emit X em (ReplyTo m') res w2).2).
Proof.
  intros H Hr He. apply String.eqb_neq in Hr.
  unfold handleMessage. fold (undecoded message). rewrite Hparse.
  unfold call_HandlerFunc. rewrite Hhandler, bind_call, H. simpl.
  rewrite Hr, bind_call, He. simpl. unfold call.
  destruct (Emit X em (ReplyTo m') res w2) as [e w3]. reflexivity.
Qed.

End Parsed.

End Dispatch.

(** C1, as the code has it.  For every delivered message whose body parses
    into an envelope and whose handler succeeds with result [res]: the
    reply destination is read after the handler has returned (the handler
    holds a pointer to the envelope).  If it is then empty, the callback
    makes no publish call and returns nil.  If it is a non-empty [x] and the
    default emitter is constructed, the callback makes exactly one publish
    call, to [x] with [res], and returns what that call returns. *)
Theorem handleMessage_replies {T : Types} (X : Ops T) (lc : ListenerConfig T)
        (message : nsq_Message) (w w1 : World T)
        (m m' : Message) (h : HandlerFunc T) (res : iface T) :
  json_Unmarshal X (msg_Body message) (undecoded message) = (m, None) ->
  HandlerFunc_ lc = Some h ->
  h m w = ((m', res, None), w1) ->
  (ReplyTo m' = "" ->
   handleMessage X lc message w = (Ret None, [HandlerFunc_call m], w1) /\
   publishes (trace_of (handleMessage X lc message w)) = []) /\
  (forall (x : string) (em : Emitter T) (w2 : World T),
     ReplyTo m' = x -> x <> "" ->
     NewEmitter X (EmitterConfig_zero X) w1 = (inl em, w2) ->
     publishes (trace_of (handleMessage X lc message w)) = [(x, res)] /\
     outcome_of (handleMessage X lc message w) = Ret (Emit X em x res w2).1 /\
     world_of (handleMessage X lc message w) = (Emit X em x res w2).2).
Proof.
  intros Hp Hh Hrun. split.
  - intros Hr.
    rewrite (handleMessage_no_reply X lc message w m h Hp Hh m' res w1 Hrun Hr).
    split; reflexivity.
  - intros x em w2 <- Hr He.
    rewrite (handleMessage_reply X lc message w m h Hp Hh m' res em w1 w2 Hrun Hr He).
    repeat split.
Qed.

Lemma handleMessage_replies_witness :
  publishes (trace_of (handleMessage all_well_ops (listener pong) (message_of "X") []))
  = [("X", "pong")] /\
  handleMessage all_well_ops (listener pong) (message_of "") []
  = (Ret None, [HandlerFunc_call (undecoded (message_of ""))], ["handled"]).
Proof.
  split.
  - refine (proj1 (proj2 (handleMessage_replies all_well_ops (listener pong)
                     (message_of "X") [] ["handled"]
                     {| Message_ := message_of "X"; ReplyTo := "X" |}
                     {| Message_ := message_of "X"; ReplyTo := "X" |}
                     pong "pong" eq_refl eq_refl eq_refl)
                   "X" tt ["handled"; "emitter"] eq_refl _ eq_refl)).
    discriminate.
  - refine (proj1 (proj1 (handleMessage_replies all_well_ops (listener pong)
                     (message_of "") [] ["handled"]
                     (undecoded (message_of "")) (undecoded (message_of ""))
                     pong "pong" eq_refl eq_refl eq_refl) eq_refl)).
Defined.

(** The reply rule as stated fails on the code in two ways: when the default
    emitter cannot be constructed no publish call is made although
    [replyTo] is ["X"], and a handler that clears [ReplyTo] through its
    pointer suppresses the reply. *)
Lemma replies_as_stated_fails :
  ~ replies_as_stated emitter_down (listener pong) (message_of "X") [] /\
  ~ replies_as_stated all_well_ops (listener silencing) (message_of "X") [].
Proof.
  split.
  - intros H.
    destruct (H {| Message_ := message_of "X"; ReplyTo := "X" |} pong
                {| Message_ := message_of "X"; ReplyTo := "X" |} "pong" ["handled"]
                eq_refl eq_refl eq_refl) as [Hx _].
    specialize (Hx "X" eq_refl). vm_compute in Hx.
    assert ("X" <> "") as Hne by discriminate.
    specialize (Hx Hne). discriminate.
  - intros H.
    destruct (H {| Message_ := message_of "X"; ReplyTo := "X" |} silencing
                {| Message_ := message_of "X"; ReplyTo := "" |} "pong" ["handled"]
                eq_refl eq_refl eq_refl) as [Hx _].
    specialize (Hx "X" eq_refl). vm_compute in Hx.
    assert ("X" <> "") as Hne by discriminate.
    specialize (Hx Hne). discriminate.
Qed.

(** C4.  The callback hands every error back to the transport, once: a body
    that fails to parse gives the parse error, and the handler is not invoked
    (no call at all is made); a handler error is returned as it is, after the
    single invocation of the handler and without a publish call; a failed
    reply publish gives the publish error as the callback's result, after one
    invocation of the handler and one publish call. *)
Theorem handleMessage_propagates_errors {T : Types} (X : Ops T)
        (lc : ListenerConfig T) (message : nsq_Message) (w : World T) :
  (forall m e,
     json_Unmarshal X (msg_Body message) (undecoded message) = (m, Some e) ->
     handleMessage X lc message w = (Ret (Some e), [], w)) /\
  (forall m h m' res e w1,
     json_Unmarshal X (msg_Body message) (undecoded message) = (m, None) ->
     HandlerFunc_ lc = Some h ->
     h m w = ((m', res, Some e), w1) ->
     handleMessage X lc message w = (Ret (Some e), [HandlerFunc_call m], w1)) /\
  (forall m h m' res em e w1 w2 w3,
     json_Unmarshal X (msg_Body message) (undecoded message) = (m, None) ->
     HandlerFunc_ lc = Some h ->
     h m w = ((m', res, None), w1) ->
     ReplyTo m' <> "" ->
     NewEmitter X (EmitterConfig_zero X) w1 = (inl em, w2) ->
     Emit X em (ReplyTo m') res w2 = (Some e, w3) ->
     handleMessage X lc message w =
     (Ret (Some e),
      [HandlerFunc_call m; NewEmitter_call (EmitterConfig_zero X);
       Emit_call (ReplyTo m') res], w3)).
Proof.
  split; [|split].
  - intros m e Hp. apply (handleMessage_parse_error X lc message w m e Hp).
  - intros m h m' res e w1 Hp Hh Hrun.
    apply (handleMessage_handler_error X lc message w m h Hp Hh m' res e w1 Hrun).
  - intros m h m' res em e w1 w2 w3 Hp Hh Hrun Hr He Hemit.
    rewrite (handleMessage_reply X lc message w m h Hp Hh m' res em w1 w2 Hrun Hr He).
    rewrite Hemit. reflexivity.
Qed.

Lemma handleMessage_propagates_errors_witness :
  handleMessage all_well_ops (listener pong) (message_of "!{") ["earlier"]
  = (Ret (Some (foreign_error "invalid character '!'")), [], ["earlier"]) /\
  handleMessage all_well_ops (listener failing) (message_of "X") []
  = (Ret (Some (foreign_error "boom")),
     [HandlerFunc_call {| Message_ := message_of "X"; ReplyTo := "X" |}],
     ["handled"]) /\
  handleMessage publish_fails (listener pong) (message_of "X") []
  = (Ret (Some (foreign_error "publish failed")),
     [HandlerFunc_call {| Message_ := message_of "X"; ReplyTo := "X" |};
      NewEmitter_call (tt : EmitterConfig T0);
      Emit_call "X" ("pong" : iface T0)],
     ["handled"; "emitter"; "publish X pong"]).
Proof.
  split; [|split].
  - refine (proj1 (handleMessage_propagates_errors all_well_ops (listener pong)
                     (message_of "!{") ["earlier"])
                  (undecoded (message_of "!{")) _ eq_refl).
  - refine (proj1 (proj2 (handleMessage_propagates_errors all_well_ops
                     (listener failing) (message_of "X") []))
                  {| Message_ := message_of "X"; ReplyTo := "X" |} failing
                  {| Message_ := message_of "X"; ReplyTo := "X" |} ""
                  _ ["handled"] eq_refl eq_refl eq_refl).
  - refine (proj2 (proj2 (handleMessage_propagates_errors publish_fails
                     (listener pong) (message_of "X") []))
                  {| Message_ := message_of "X"; ReplyTo := "X" |} pong
                  {| Message_ := message_of "X"; ReplyTo := "X" |} "pong" tt
                  _ ["handled"] ["handled"; "emitter"]
                  ["handled"; "emitter"; "publish X pong"]
                  eq_refl eq_refl eq_refl _ eq_refl eq_refl).
    discriminate.
Defined.

(** C10.  For a delivered message that parses, whose handler succeeds and
    whose reply destination is not empty: when the construction of the
    default emitter fails, the callback returns the construction error as the
    failure of the message, and makes no publish call (its calls are the
    handler and the failed construction). *)
Theorem handleMessage_emitter_failure {T : Types} (X : Ops T)
        (lc : ListenerConfig T) (message : nsq_Message) (w w1 w2 : World T)
        (m m' : Message) (h : HandlerFunc T) (res : iface T) (e : goerror) :
  json_Unmarshal X (msg_Body message) (undecoded message) = (m, None) ->
  HandlerFunc_ lc = Some h ->
  h m w = ((m', res, None), w1) ->
  ReplyTo m' <> "" ->
  NewEmitter X (EmitterConfig_zero X) w1 = (inr e, w2) ->
  handleMessage X lc message w =
  (Ret (Some e), [HandlerFunc_call m; NewEmitter_call (EmitterConfig_zero X)], w2) /\
  publishes (trace_of (handleMessage X lc message w)) = [].
Proof.
  intros Hp Hh Hrun Hr He.
  rewrite (handleMessage_no_emitter X lc message w m h Hp Hh m' res e w1 w2 Hrun Hr He).
  split; reflexivity.
Qed.

Lemma handleMessage_emitter_failure_witness :
  handleMessage emitter_down (listener pong) (message_of "X") []
  = (Ret (Some (foreign_error "no producer")),
     [HandlerFunc_call {| Message_ := message_of "X"; ReplyTo := "X" |};
      NewEmitter_call (tt : EmitterConfig T0)],
     ["handled"; "emitter"]) /\
  publishes (trace_of (handleMessage emitter_down (listener pong) (message_of "X") []))
  = [].
Proof.
  refine (handleMessage_emitter_failure emitter_down (listener pong)
            (message_of "X") [] ["handled"] ["handled"; "emitter"]
            {| Message_ := message_of "X"; ReplyTo := "X" |}
            {| Message_ := message_of "X"; ReplyTo := "X" |}
            pong "pong" (foreign_error "no producer")
            eq_refl eq_refl eq_refl _ eq_refl).
  discriminate.
Defined.

(** ** The caller's configuration *)

Section Frame.

Context {T : Types} (X : Ops T).

Lemma fresh_not_allocated (h : gmap positive (list string)) :
  h !! fresh (dom h) = None.
Proof. apply not_elem_of_dom. apply is_fresh. Qed.

Lemma assign_default_Lookup_keeps (s : Store T) (l : positive) (arr : list string) :
  arrays s !! l = Some arr -> arrays (assign_default_Lookup s) !! l = Some arr.
Proof.
  intros H. unfold assign_default_Lookup. simpl.
  rewrite lookup_insert_ne; [exact H|].
  intros Heq. rewrite <- Heq, fresh_not_allocated in H. discriminate.
Qed.

Lemma slice_contents_length (h : gmap positive (list string)) (sl : Slice) :
  slice_ok h sl -> List.length (slice_contents h sl) = slice_len sl.
Proof.
  unfold slice_ok, slice_contents. destruct (base sl) as [l|].
  - intros (arr & -> & Hle). simpl. rewrite length_take. lia.
  - intros ->. reflexivity.
Qed.

Lemma slice_contents_keeps (h h' : gmap positive (list string)) (sl : Slice) :
  slice_ok h sl ->
  (forall l arr, h !! l = Some arr -> h' !! l = Some arr) ->
  slice_contents h' sl = slice_contents h sl.
Proof.
  unfold slice_ok, slice_contents. destruct (base sl) as [l|]; [|reflexivity].
  intros (arr & Hl & _) Hkeep. rewrite (Hkeep l arr Hl), Hl. reflexivity.
Qed.

(** What the store is after [On]: nothing but the parameter and, for the
    default list, one new array. *)
Lemma On_mem_store (s : Store T) (w : World T) :
  caller_lc (On_mem X s w).2 = caller_lc s /\
  (forall l arr, arrays s !! l = Some arr ->
                 arrays (On_mem X s w).2 !! l = Some arr).
Proof.
  unfold On_mem.
  destruct (len_string (mem_Topic (On_lc (pass_by_value s))) =? 0)%Z;
    [split; [reflexivity | intros l arr H; exact H]|].
  destruct (len_string (mem_Channel (On_lc (pass_by_value s))) =? 0)%Z;
    [split; [reflexivity | intros l arr H; exact H]|].
  destruct (is_nil (mem_HandlerFunc (On_lc (pass_by_value s))));
    [split; [reflexivity | intros l arr H; exact H]|].
  cbv zeta.
  destruct (Z.of_nat (slice_len (mem_Lookup (On_lc (pass_by_value s)))) =? 0)%Z.
  - destruct (mem_HandlerConcurrency (On_lc (assign_default_Lookup (pass_by_value s)))
              =? 0)%Z; simpl;
      (split; [reflexivity|]); intros l arr H;
      apply (assign_default_Lookup_keeps (pass_by_value s) l arr H).
  - destruct (mem_HandlerConcurrency (On_lc (pass_by_value s)) =? 0)%Z; simpl;
      (split; [reflexivity|]); intros l arr H; exact H.
Qed.

(** The parameter after line 46 stands for the caller's configuration with
    its defaults filled. *)
Lemma On_mem_fills_parameter (s : Store T) (w : World T) :
  slice_ok (arrays s) (mem_Lookup (caller_lc s)) ->
  valid (config_at (arrays s) (caller_lc s)) ->
  config_at (arrays (On_mem X s w).2) (On_lc (On_mem X s w).2)
  = fillDefaults (config_at (arrays s) (caller_lc s)) /\
  (On_mem X s w).1
  = provisionAndSubscribe X (fillDefaults (config_at (arrays s) (caller_lc s))) w.
Proof.
  intros Hok (Ht & Hc & Hh). simpl in Ht, Hc, Hh.
  unfold On_mem. change (On_lc (pass_by_value s)) with (caller_lc s).
  rewrite (len_string_not0 _ Ht), (len_string_not0 _ Hc), (is_nil_false _ Hh).
  cbv zeta.
  match goal with
  | |- config_at (arrays (_, ?S).2) _ = _ /\ _ => set (S2 := S)
  end.
  cbn [fst snd].
  assert (config_at (arrays S2) (On_lc S2)
          = fillDefaults (config_at (arrays s) (caller_lc s))) as Hkey.
  { subst S2. unfold fillDefaults.
    change (Lookup (config_at (arrays s) (caller_lc s)))
      with (slice_contents (arrays s) (mem_Lookup (caller_lc s))).
    unfold len. rewrite (slice_contents_length _ _ Hok).
    destruct (Z.of_nat (slice_len (mem_Lookup (caller_lc s))) =? 0)%Z.
    - change (mem_HandlerConcurrency (On_lc (assign_default_Lookup (pass_by_value s))))
        with (mem_HandlerConcurrency (caller_lc s)).
      change (HandlerConcurrency
                (set_Lookup (config_at (arrays s) (caller_lc s)) ["localhost:4161"]))
        with (mem_HandlerConcurrency (caller_lc s)).
      destruct (mem_HandlerConcurrency (caller_lc s) =? 0)%Z;
        unfold config_at, set_Lookup, set_HandlerConcurrency, assign_default_Lookup,
          assign_HandlerConcurrency, slice_contents; simpl;
        rewrite lookup_insert_eq; reflexivity.
    - change (mem_HandlerConcurrency (On_lc (pass_by_value s)))
        with (mem_HandlerConcurrency (caller_lc s)).
      change (HandlerConcurrency (config_at (arrays s) (caller_lc s)))
        with (mem_HandlerConcurrency (caller_lc s)).
      destruct (mem_HandlerConcurrency (caller_lc s) =? 0)%Z; reflexivity. }
  rewrite Hkey. split; reflexivity.
Qed.

(** On the store, [On] is [On] on the configuration the caller's struct
    stands for. *)
Lemma On_mem_refines (s : Store T) (w : World T) :
  slice_ok (arrays s) (mem_Lookup (caller_lc s)) ->
  (On_mem X s w).1 = On X (config_at (arrays s) (caller_lc s)) w.
Proof.
  intros Hok. destruct (valid_dec (config_at (arrays s) (caller_lc s))) as [Hv|Hnv].
  - rewrite (On_stages X _ w Hv). apply (On_mem_fills_parameter s w Hok Hv).
  - destruct (invalid_cases _ Hnv) as [Ht | [[Ht Hc] | (Ht & Hc & Hh)]].
    + rewrite (On_no_topic X _ w Ht). simpl in Ht.
      unfold On_mem. simpl On_lc. rewrite Ht. reflexivity.
    + rewrite (On_no_channel X _ w Ht Hc). simpl in Ht, Hc.
      unfold On_mem. simpl On_lc. rewrite (len_string_not0 _ Ht), Hc. reflexivity.
    + rewrite (On_no_handler X _ w Ht Hc Hh). simpl in Ht, Hc, Hh.
      unfold On_mem. simpl On_lc.
      rewrite (len_string_not0 _ Ht), (len_string_not0 _ Hc), Hh. reflexivity.
Qed.

End Frame.

(** A caller with a nil [Lookup]: the default list lands in a new array at
    address 2 that only the parameter points to; the caller's header is
    still nil and the array at address 1 is as it was. *)
Example On_mem_caller_with_nil :
  mem_Lookup (On_lc (On_mem all_well_ops caller_with_nil []).2)
  = {| base := Some 2%positive; slice_len := 1; slice_cap := 1 |} /\
  arrays (On_mem all_well_ops caller_with_nil []).2 !! 2%positive
  = Some ["localhost:4161"] /\
  mem_Lookup (caller_lc (On_mem all_well_ops caller_with_nil []).2)
  = {| base := None; slice_len := 0; slice_cap := 0 |} /\
  arrays (On_mem all_well_ops caller_with_nil []).2 !! 1%positive = Some ["kept"].
Proof. vm_compute. repeat split. Qed.

(** C9.  The caller's configuration is unchanged when [On] returns: the
    struct in the caller's variable is the one it was, every array that was
    allocated holds what it held, and so the configuration the caller reads
    ([Lookup] included) is the same; the defaults are written to the
    parameter of [On] only, which after line 46 holds them, and to an array
    that did not exist before the call.  The run on the store is the run of
    [On] on the caller's configuration. *)
Theorem On_leaves_caller_config {T : Types} (X : Ops T) (s : Store T) (w : World T) :
  slice_ok (arrays s) (mem_Lookup (caller_lc s)) ->
  caller_lc (On_mem X s w).2 = caller_lc s /\
  (forall l arr, arrays s !! l = Some arr ->
                 arrays (On_mem X s w).2 !! l = Some arr) /\
  config_at (arrays (On_mem X s w).2) (caller_lc (On_mem X s w).2)
  = config_at (arrays s) (caller_lc s) /\
  (On_mem X s w).1 = On X (config_at (arrays s) (caller_lc s)) w /\
  (valid (config_at (arrays s) (caller_lc s)) ->
   config_at (arrays (On_mem X s w).2) (On_lc (On_mem X s w).2)
   = fillDefaults (config_at (arrays s) (caller_lc s))).
Proof.
  intros Hok. destruct (On_mem_store X s w) as [Hcaller Hkeep].
  split; [exact Hcaller|]. split; [exact Hkeep|]. split; [|split].
  - rewrite Hcaller. unfold config_at. f_equal.
    apply (slice_contents_keeps _ _ _ Hok Hkeep).
  - apply (On_mem_refines X s w Hok).
  - intros Hv. apply (On_mem_fills_parameter X s w Hok Hv).
Qed.

Lemma On_leaves_caller_config_witness :
  (caller_lc (On_mem all_well_ops caller_with_nil []).2 = caller_lc caller_with_nil /\
   Lookup (config_at (arrays (On_mem all_well_ops caller_with_nil []).2)
                     (caller_lc (On_mem all_well_ops caller_with_nil []).2)) = [] /\
   Lookup (config_at (arrays (On_mem all_well_ops caller_with_nil []).2)
                     (On_lc (On_mem all_well_ops caller_with_nil []).2))
   = ["localhost:4161"]) /\
  (caller_lc (On_mem all_well_ops caller_with_two []).2 = caller_lc caller_with_two /\
   Lookup (config_at (arrays (On_mem all_well_ops caller_with_two []).2)
                     (caller_lc (On_mem all_well_ops caller_with_two []).2))
   = ["a:4161"; "b:4161"]).
Proof.
  assert (slice_ok (arrays caller_with_nil) (mem_Lookup (caller_lc caller_with_nil)))
    as Hnil by reflexivity.
  assert (slice_ok (arrays caller_with_two) (mem_Lookup (caller_lc caller_with_two)))
    as Htwo.
  { exists ["a:4161"; "b:4161"; "spare"]. split; [reflexivity | simpl; lia]. }
  destruct (On_leaves_caller_config all_well_ops caller_with_nil [] Hnil)
    as (Hc & _ & Hcfg & _ & Hparam).
  destruct (On_leaves_caller_config all_well_ops caller_with_two [] Htwo)
    as (Hc' & _ & Hcfg' & _).
  split; [split; [exact Hc | split] | split; [exact Hc'|]].
  - rewrite Hcfg. reflexivity.
  - rewrite Hparam; [reflexivity|]. repeat split; discriminate.
  - rewrite Hcfg'. reflexivity.
Defined.

(** * Further properties of the listener *)

(** ** [checkTopic] and [createTopic] *)

Section ProvisionerShape.

Context {T : Types} (X : Ops T).

Lemma createTopic_shape (t a : string) (w : World T) :
  exists (e : error) (tr : list (Event T)) (w1 : World T),
    createTopic X t a w = (Ret e, tr, w1) /\
    creation_trace a t tr /\
    (e = None ->
     exists n, tr = [http_Get_call (nodesURL a); http_Post_call (createURL n t) ""]).
Proof.
  destruct (http_Get X (nodesURL a) w) as [[resp|err] w1] eqn:H.
  - destruct (Z.eq_dec (StatusCode resp) http_StatusOK) as [Hs|Hs].
    + destruct (json_Decode_nodes X (Body resp)) as [[|n0 rest]|err] eqn:Hd.
      * eexists _, _, _. split; [apply (createTopic_no_nodes X _ _ _ _ _ H Hs Hd)|].
        split; [left; reflexivity | discriminate].
      * eexists _, _, _.
        split; [apply (createTopic_first_node X _ _ _ _ _ _ _ H Hs Hd)|].
        split; [right; exists n0; reflexivity | intros _; exists n0; reflexivity].
      * eexists _, _, _. split; [apply (createTopic_bad_body X _ _ _ _ _ _ H Hs Hd)|].
        split; [left; reflexivity | discriminate].
    + eexists _, _, _. split; [apply (createTopic_bad_status X _ _ _ _ _ H Hs)|].
      split; [left; reflexivity | discriminate].
  - eexists _, _, _. split; [apply (createTopic_no_answer X _ _ _ _ _ H)|].
    split; [left; reflexivity | discriminate].
Qed.

Lemma ensureTopic_shape (a t : string) (w : World T) :
  exists (e : error) (tr : list (Event T)) (w1 : World T),
    ensureTopic X a t w = (Ret e, tr, w1) /\
    provisioning_trace a t tr /\ tr <> [].
Proof.
  rewrite ensureTopic_run.
  destruct (checkTopic_result _) as [exist [e|]].
  - eexists _, _, _. split; [destruct exist; reflexivity|].
    split; [right; left; reflexivity | discriminate].
  - destruct exist.
    + eexists _, _, _. split; [reflexivity|].
      split; [right; left; reflexivity | discriminate].
    + destruct (createTopic_shape t a (http_Get X (lookupURL a t) w).2)
        as (e & tr & w1 & Hc & Htr & _).
      rewrite Hc. eexists _, _, _. split; [reflexivity|].
      split; [|discriminate].
      right; right. exists tr. split; [reflexivity | exact Htr].
Qed.

Lemma subscribe_shape (lc : ListenerConfig T) (w : World T) :
  exists (e : error) (tr : list (Event T)) (w1 : World T),
    subscribe X lc w = (Ret e, tr, w1) /\
    subscription_trace X lc tr /\
    (e = None -> tr = subscription_calls X lc).
Proof.
  destruct (nsq_NewConsumer X (Topic lc) (Channel lc) (newListenerConfig X lc) w)
    as [[c|e] w1] eqn:H.
  - eexists _, _, _. split; [apply (subscribe_consumer X _ _ _ _ H)|].
    split; [right; right; reflexivity | reflexivity].
  - eexists _, _, _. split; [apply (subscribe_no_consumer X _ _ _ _ H)|].
    split; [right; left; reflexivity | discriminate].
Qed.

End ProvisionerShape.

(** ** Every run of [On] *)

Section RunsOfOn.

Context {T : Types} (X : Ops T).

Lemma fillDefaults_valid (lc : ListenerConfig T) :
  valid (fillDefaults lc) <-> valid lc.
Proof.
  unfold valid. destruct (fillDefaults_frame lc) as (-> & -> & -> & _). tauto.
Qed.

Lemma fillDefaults_idempotent (lc : ListenerConfig T) :
  fillDefaults (fillDefaults lc) = fillDefaults lc.
Proof.
  unfold fillDefaults at 1.
  destruct (fillDefaults_first lc) as (a & rest & Hl & _). rewrite Hl.
  change (len (a :: rest) =? 0)%Z with false. cbv iota zeta.
  destruct (HandlerConcurrency (fillDefaults lc) =? 0)%Z eqn:E; [|reflexivity].
  exfalso. apply Z.eqb_eq in E.
  destruct (Z.eq_dec (HandlerConcurrency lc) 0) as [H0|H0].
  - rewrite (fillDefaults_HandlerConcurrency_0 lc H0) in E. discriminate.
  - rewrite (fillDefaults_HandlerConcurrency_set lc H0) in E. contradiction.
Qed.

(** The run of [On] on a valid configuration, by the outcome of the
    provisioner. *)
Lemma On_valid_run (lc : ListenerConfig T) (w : World T) :
  valid lc ->
  exists (a : string) (rest : list string) (trp : list (Event T)) (w0 : World T),
    Lookup (fillDefaults lc) = a :: rest /\
    provisioning_trace a (Topic lc) trp /\
    (AutoCreateTopic lc = false -> trp = [] /\ w0 = w) /\
    ((exists e, (AutoCreateTopic lc = true /\
                 ensureTopic X a (Topic lc) w = (Ret (Some e), trp, w0)) /\
                On X lc w = (Ret (Some e), trp, w0)) \/
     ((AutoCreateTopic lc = true ->
       ensureTopic X a (Topic lc) w = (Ret None, trp, w0)) /\
      On X lc w =
      let '(r, trs, w2) := subscribe X (fillDefaults lc) w0 in (r, trp ++ trs, w2))).
Proof.
  intros Hv. destruct (fillDefaults_first lc) as (a & rest & Hl & _).
  destruct (fillDefaults_frame lc) as (Ht & _ & _ & Hauto).
  rewrite (On_stages X lc w Hv), (provisionAndSubscribe_run X _ a rest w Hl).
  rewrite Hauto, Ht.
  destruct (AutoCreateTopic lc).
  - destruct (ensureTopic_shape X a (Topic lc) w) as (e & trp & w0 & He & Hp & _).
    exists a, rest, trp, w0. split; [exact Hl|]. split; [exact Hp|].
    split; [discriminate|]. rewrite He. destruct e as [e|].
    + left. exists e. repeat split.
    + right. split; [reflexivity|]. reflexivity.
  - exists a, rest, [], w. split; [exact Hl|]. split; [left; reflexivity|].
    split; [intros _; split; reflexivity|].
    right. split; [discriminate|].
    destruct (subscribe X (fillDefaults lc) w) as [[r trs] w2]. reflexivity.
Qed.

End RunsOfOn.

(** X1.  [On] returns for every configuration and every behaviour of its
    collaborators: neither [lc.Lookup[0]] (lines 50 and 56) nor [nodes[0]]
    (line 144) is ever evaluated on an empty slice. *)
Theorem On_always_returns {T : Types} (X : Ops T)
        (lc : ListenerConfig T) (w : World T) :
  exists e : error, outcome_of (On X lc w) = Ret e.
Proof.
  destruct (valid_dec lc) as [Hv|Hnv].
  - destruct (On_valid_run X lc w Hv)
      as (a & rest & trp & w0 & _ & _ & _ & [(e & _ & Hon) | [_ Hon]]).
    + exists (Some e). rewrite Hon. reflexivity.
    + rewrite Hon.
      destruct (subscribe_shape X (fillDefaults lc) w0) as (e & trs & w2 & Hs & _).
      rewrite Hs. exists e. reflexivity.
  - destruct (On_invalid X lc w Hnv) as (e & He). exists (Some e).
    rewrite He. reflexivity.
Qed.

Lemma ensureTopic_first_call {T : Types} (X : Ops T) (a t : string) (w : World T) :
  exists tl, trace_of (ensureTopic X a t w) = http_Get_call (lookupURL a t) :: tl.
Proof.
  rewrite ensureTopic_run.
  destruct (checkTopic_result _) as [exist [e|]].
  - exists []. destruct exist; reflexivity.
  - destruct exist.
    + exists []. reflexivity.
    + destruct (createTopic X t a _) as [[r tr] w2]. exists tr. reflexivity.
Qed.

Lemma subscribe_first_call {T : Types} (X : Ops T) (lc : ListenerConfig T)
      (w : World T) :
  exists tl,
    trace_of (subscribe X lc w)
    = NewConsumer_call (Topic lc) (Channel lc) (newListenerConfig X lc) :: tl.
Proof.
  destruct (nsq_NewConsumer X (Topic lc) (Channel lc) (newListenerConfig X lc) w)
    as [[c|e] w1] eqn:H.
  - rewrite (subscribe_consumer X _ _ _ _ H). eexists. reflexivity.
  - rewrite (subscribe_no_consumer X _ _ _ _ H). eexists. reflexivity.
Qed.

(** X2.  The calls of a run of [On] are the calls of the provisioner
    followed by the calls that start the subscription, and nothing else.
    An invalid configuration gives no call.  On a valid one with
    [AutoCreateTopic] set, the first calls are exactly those of the
    provisioner at the first discovery address, beginning with the lookup
    query (then possibly the node query, then possibly one create-topic
    command); the calls of the subscription follow exactly when the
    provisioner returned nil, and none is made otherwise.  On a valid one
    without [AutoCreateTopic] there is no provisioning call and the calls
    are exactly those of the subscription.  The subscription always begins
    with the construction of the consumer (then possibly the registration and
    the connect).  [On] itself never invokes the handler and never
    constructs an emitter or publishes. *)
Theorem On_call_order {T : Types} (X : Ops T)
        (lc : ListenerConfig T) (w : World T) :
  exists (a : string) (rest : list string) (trp trs : list (Event T)),
    Lookup (fillDefaults lc) = a :: rest /\
    trace_of (On X lc w) = trp ++ trs /\
    provisioning_trace a (Topic lc) trp /\
    subscription_trace X (fillDefaults lc) trs /\
    (~ valid lc -> trp = [] /\ trs = []) /\
    (valid lc -> AutoCreateTopic lc = false ->
     trp = [] /\ trs = trace_of (subscribe X (fillDefaults lc) w)) /\
    (valid lc -> AutoCreateTopic lc = true ->
     trp = trace_of (ensureTopic X a (Topic lc) w) /\
     (exists tl, trp = http_Get_call (lookupURL a (Topic lc)) :: tl) /\
     (outcome_of (ensureTopic X a (Topic lc) w) = Ret None ->
      trs = trace_of (subscribe X (fillDefaults lc)
                                (world_of (ensureTopic X a (Topic lc) w)))) /\
     (outcome_of (ensureTopic X a (Topic lc) w) <> Ret None -> trs = [])) /\
    (forall w0, exists tl,
       trace_of (subscribe X (fillDefaults lc) w0)
       = NewConsumer_call (Topic (fillDefaults lc)) (Channel (fillDefaults lc))
                          (newListenerConfig X (fillDefaults lc)) :: tl) /\
    publishes (trace_of (On X lc w)) = [] /\
    (forall m, ~ In (HandlerFunc_call m) (trace_of (On X lc w))) /\
    (forall ec, ~ In (NewEmitter_call ec) (trace_of (On X lc w))).
Proof.
  assert (exists a rest trp trs,
            Lookup (fillDefaults lc) = a :: rest /\
            trace_of (On X lc w) = trp ++ trs /\
            provisioning_trace a (Topic lc) trp /\
            subscription_trace X (fillDefaults lc) trs /\
            (~ valid lc -> trp = [] /\ trs = []) /\
            (valid lc -> AutoCreateTopic lc = false ->
             trp = [] /\ trs = trace_of (subscribe X (fillDefaults lc) w)) /\
            (valid lc -> AutoCreateTopic lc = true ->
             trp = trace_of (ensureTopic X a (Topic lc) w) /\
             (exists tl, trp = http_Get_call (lookupURL a (Topic lc)) :: tl) /\
             (outcome_of (ensureTopic X a (Topic lc) w) = Ret None ->
              trs = trace_of (subscribe X (fillDefaults lc)
                                        (world_of (ensureTopic X a (Topic lc) w)))) /\
             (outcome_of (ensureTopic X a (Topic lc) w) <> Ret None -> trs = [])))
    as (a & rest & trp & trs & Hl & Htr & Hp & Hs & Hinv & Hoff & Hon).
  { destruct (valid_dec lc) as [Hv|Hnv].
    - destruct (On_valid_run X lc w Hv)
        as (a & rest & trp & w0 & Hl & Hp & Hauto
            & [(e & (Ha & He) & Hrun) | [Hens Hrun]]).
      + exists a, rest, trp, []. rewrite Hrun, app_nil_r.
        split; [exact Hl|]. split; [reflexivity|]. split; [exact Hp|].
        split; [left; reflexivity|]. split; [intros Hnv; contradiction|].
        split; [intros _ Hf; congruence|].
        intros _ _. rewrite He. split; [reflexivity|].
        split; [|split; [discriminate | reflexivity]].
        destruct (ensureTopic_first_call X a (Topic lc) w) as (tl & Htl).
        rewrite He in Htl. exists tl. exact Htl.
      + destruct (subscribe X (fillDefaults lc) w0) as [[r trs] w2] eqn:Hsub.
        destruct (subscribe_shape X (fillDefaults lc) w0) as (e' & trs' & w2' & Hsub' & Hs & _).
        rewrite Hsub in Hsub'. injection Hsub' as _ <- _.
        exists a, rest, trp, trs. rewrite Hrun.
        split; [exact Hl|]. split; [reflexivity|]. split; [exact Hp|].
        split; [exact Hs|]. split; [intros Hnv; contradiction|].
        split.
        * intros _ Hf. destruct (Hauto Hf) as [-> ->]. rewrite Hsub.
          split; reflexivity.
        * intros _ Ht. rewrite (Hens Ht). split; [reflexivity|].
          split; [|split].
          -- destruct (ensureTopic_first_call X a (Topic lc) w) as (tl & Htl).
             rewrite (Hens Ht) in Htl. exists tl. exact Htl.
          -- intros _. unfold world_of. simpl. rewrite Hsub. reflexivity.
          -- intros Hne. exfalso. apply Hne. reflexivity.
    - destruct (fillDefaults_first lc) as (a & rest & Hl & _).
      destruct (On_invalid X lc w Hnv) as (e & He).
      exists a, rest, [], []. rewrite He.
      split; [exact Hl|]. split; [reflexivity|]. split; [left; reflexivity|].
      split; [left; reflexivity|]. split; [intros _; split; reflexivity|].
      split; intros Hv; contradiction. }
  exists a, rest, trp, trs.
  split; [exact Hl|]. split; [exact Htr|]. split; [exact Hp|].
  split; [exact Hs|]. split; [exact Hinv|]. split; [exact Hoff|].
  split; [exact Hon|].
  split; [intros w0; apply subscribe_first_call|].
  rewrite Htr.
  assert (forall e, In e (trp ++ trs) ->
                    is_http_call e = true \/ is_transport_call e = true) as Hkind.
  { intros e Hin. apply in_app_or in Hin. destruct Hin as [Hin|Hin].
    - left. destruct Hp as [-> | [-> | (tr' & -> & [-> | [n ->]])]];
        simpl in Hin; intuition (subst; reflexivity).
    - right. destruct Hs as [-> | [-> | ->]];
        simpl in Hin; intuition (subst; reflexivity). }
  split; [|split].
  - destruct Hp as [-> | [-> | (tr' & -> & [-> | [n ->]])]];
      destruct Hs as [-> | [-> | ->]]; reflexivity.
  - intros m Hin. destruct (Hkind _ Hin); discriminate.
  - intros ec Hin. destruct (Hkind _ Hin); discriminate.
Qed.

Lemma On_call_order_witness :
  trace_of (On topic_unknown (listener pong) [])
  = [http_Get_call "http://disc:4161/lookup?topic=orders";
     http_Get_call "http://disc:4161/nodes";
     http_Post_call "http://n1:4150/topic/create?topic=orders" "";
     NewConsumer_call "orders" "billing" (tt : nsq_Config T0);
     AddConcurrentHandlers_call 1;
     ConnectToNSQLookupds_call ["disc:4161"; "other:4161"]] /\
  trace_of (On lookup_broken (listener pong) [])
  = [http_Get_call "http://disc:4161/lookup?topic=orders"] /\
  trace_of (On all_well_ops
               (config0 "orders" "billing" ["disc:4161"] (Some pong) 2 false) [])
  = [NewConsumer_call "orders" "billing" (tt : nsq_Config T0);
     AddConcurrentHandlers_call 2;
     ConnectToNSQLookupds_call ["disc:4161"]].
Proof.
  assert (valid (listener pong)) as Hv by (repeat split; discriminate).
  assert (valid (config0 "orders" "billing" ["disc:4161"] (Some pong) 2 false))
    as Hv' by (repeat split; discriminate).
  split; [|split].
  - destruct (On_call_order topic_unknown (listener pong) [])
      as (a & rest & trp & trs & Hl & Htr & _ & _ & _ & _ & Hon & _).
    injection Hl as <- <-.
    destruct (Hon Hv eq_refl) as (Htrp & _ & Hnil & _).
    rewrite Htr, Htrp, (Hnil eq_refl). reflexivity.
  - destruct (On_call_order lookup_broken (listener pong) [])
      as (a & rest & trp & trs & Hl & Htr & _ & _ & _ & _ & Hon & _).
    injection Hl as <- <-.
    destruct (Hon Hv eq_refl) as (Htrp & _ & _ & Herr).
    rewrite Htr, Htrp, Herr; [reflexivity | discriminate].
  - destruct (On_call_order all_well_ops
                (config0 "orders" "billing" ["disc:4161"] (Some pong) 2 false) [])
      as (a & rest & trp & trs & _ & Htr & _ & _ & _ & Hoff & _).
    destruct (Hoff Hv' eq_refl) as (Htrp & Htrs).
    rewrite Htr, Htrp, Htrs. reflexivity.
Defined.

(** X3.  When [On] returns nil the subscription has been started in full:
    the configuration is valid, the provisioner (if [AutoCreateTopic] is set)
    has returned nil, and the last three calls are the construction of the
    consumer for the given topic and channel, the registration of the handler
    at the defaulted concurrency and the connect to the whole defaulted list
    of discovery addresses. *)
Theorem On_nil_means_subscribed {T : Types} (X : Ops T)
        (lc : ListenerConfig T) (w : World T) :
  outcome_of (On X lc w) = Ret None ->
  valid lc /\
  exists (a : string) (rest : list string) (trp : list (Event T)) (w0 : World T),
    Lookup (fillDefaults lc) = a :: rest /\
    provisioning_trace a (Topic lc) trp /\
    (AutoCreateTopic lc = true ->
     ensureTopic X a (Topic lc) w = (Ret None, trp, w0)) /\
    (AutoCreateTopic lc = false -> trp = []) /\
    trace_of (On X lc w) = trp ++ subscription_calls X (fillDefaults lc).
Proof.
  intros Hnil. destruct (valid_dec lc) as [Hv|Hnv].
  - split; [exact Hv|].
    destruct (On_valid_run X lc w Hv)
      as (a & rest & trp & w0 & Hl & Hp & Hauto & [(e & _ & Hon) | [Hens Hon]]).
    + rewrite Hon in Hnil. discriminate.
    + destruct (subscribe_shape X (fillDefaults lc) w0)
        as (e & trs & w2 & Hsub & _ & Hfull).
      rewrite Hon, Hsub in Hnil. unfold outcome_of in Hnil. simpl in Hnil.
      injection Hnil as ->.
      exists a, rest, trp, w0. split; [exact Hl|]. split; [exact Hp|].
      split; [exact Hens|]. split; [apply Hauto|].
      rewrite Hon, Hsub, (Hfull eq_refl). reflexivity.
  - destruct (On_invalid X lc w Hnv) as (e & He). rewrite He in Hnil. discriminate.
Qed.

Lemma On_nil_means_subscribed_witness :
  valid (config0 "orders" "billing" ["disc:4161"] (Some pong) 1 true) /\
  exists (a : string) (rest : list string) (trp : list (Event T0)) (w0 : World T0),
    Lookup (fillDefaults (config0 "orders" "billing" ["disc:4161"] (Some pong) 1 true))
    = a :: rest /\
    provisioning_trace a "orders" trp /\
    (true = true -> ensureTopic topic_unknown a "orders" [] = (Ret None, trp, w0)) /\
    (true = false -> trp = []) /\
    trace_of (On topic_unknown
                 (config0 "orders" "billing" ["disc:4161"] (Some pong) 1 true) [])
    = trp ++ subscription_calls topic_unknown
               (fillDefaults (config0 "orders" "billing" ["disc:4161"] (Some pong) 1 true)).
Proof.
  apply (On_nil_means_subscribed topic_unknown
           (config0 "orders" "billing" ["disc:4161"] (Some pong) 1 true) []).
  reflexivity.
Defined.

(** X4.  When the consumer cannot be constructed (line 63), [On] returns
    the constructor's error: the handler is not registered and no connect is
    attempted.  The consumer is asked for with the caller's topic and channel
    and the transport configuration made from the defaulted configuration,
    in the world the provisioner left. *)
Theorem On_consumer_failure {T : Types} (X : Ops T)
        (lc : ListenerConfig T) (w w0 w1 : World T)
        (a : string) (rest : list string) (trp : list (Event T)) (e : goerror) :
  valid lc ->
  Lookup (fillDefaults lc) = a :: rest ->
  (if AutoCreateTopic lc
   then ensureTopic X a (Topic lc) w = (Ret None, trp, w0)
   else trp = [] /\ w0 = w) ->
  nsq_NewConsumer X (Topic lc) (Channel lc)
                  (newListenerConfig X (fillDefaults lc)) w0 = (inr e, w1) ->
  On X lc w =
  (Ret (Some e),
   trp ++ [NewConsumer_call (Topic lc) (Channel lc)
                            (newListenerConfig X (fillDefaults lc))],
   w1).
Proof.
  intros Hv Hl Hprov Hnc.
  destruct (fillDefaults_frame lc) as (Ht & Hc & _ & Hauto).
  assert (subscribe X (fillDefaults lc) w0 =
          (Ret (Some e),
           [NewConsumer_call (Topic lc) (Channel lc)
                             (newListenerConfig X (fillDefaults lc))], w1)) as Hsub.
  { rewrite <- Ht, <- Hc in Hnc |- *.
    apply (subscribe_no_consumer X (fillDefaults lc) w0 w1 e Hnc). }
  rewrite (On_stages X lc w Hv), (provisionAndSubscribe_run X _ a rest w Hl).
  rewrite Hauto, Ht. destruct (AutoCreateTopic lc).
  - rewrite Hprov, Hsub. reflexivity.
  - destruct Hprov as [-> ->]. rewrite Hsub. reflexivity.
Qed.

Lemma On_consumer_failure_witness :
  On consumer_refused (config0 "orders" "billing" [] (Some pong) 0 false) ["earlier"]
  = (Ret (Some (foreign_error "invalid topic name")),
     [NewConsumer_call "orders" "billing" (tt : nsq_Config T0)],
     ["earlier"; "consumer orders/billing"]).
Proof.
  refine (On_consumer_failure consumer_refused
            (config0 "orders" "billing" [] (Some pong) 0 false)
            ["earlier"] ["earlier"] ["earlier"; "consumer orders/billing"]
            "localhost:4161" [] [] (foreign_error "invalid topic name")
            _ eq_refl (conj eq_refl eq_refl) eq_refl).
  repeat split; discriminate.
Defined.

(** X5.  Passing the defaults explicitly is the same as leaving them out:
    [On] on a configuration and [On] on that configuration with its defaults
    filled make the same calls, leave the same world and return the same
    value, for every configuration (valid or not). *)
Theorem On_defaults_explicit {T : Types} (X : Ops T)
        (lc : ListenerConfig T) (w : World T) :
  On X (fillDefaults lc) w = On X lc w.
Proof.
  destruct (valid_dec lc) as [Hv|Hnv].
  - rewrite (On_stages X lc w Hv).
    rewrite (On_stages X (fillDefaults lc) w (proj2 (fillDefaults_valid lc) Hv)).
    rewrite fillDefaults_idempotent. reflexivity.
  - destruct (fillDefaults_frame lc) as (Ht & Hc & Hh & _).
    destruct (invalid_cases lc Hnv) as [Ht' | [[Ht' Hc'] | (Ht' & Hc' & Hh')]].
    + rewrite (On_no_topic X lc w Ht'). apply On_no_topic. congruence.
    + rewrite (On_no_channel X lc w Ht' Hc'). apply On_no_channel; congruence.
    + rewrite (On_no_handler X lc w Ht' Hc' Hh'). apply On_no_handler; congruence.
Qed.

(** X6.  When the discovery service cannot be reached for the lookup query
    (line 101), [On] with [AutoCreateTopic] set returns the transport's error
    after that single request: the node query, the create-topic command and
    the subscription are not attempted. *)
Theorem On_lookup_unreachable {T : Types} (X : Ops T)
        (lc : ListenerConfig T) (w w1 : World T)
        (a : string) (rest : list string) (err : goerror) :
  valid lc -> AutoCreateTopic lc = true ->
  Lookup (fillDefaults lc) = a :: rest ->
  http_Get X (lookupURL a (Topic lc)) w = (inr err, w1) ->
  ensureTopic X a (Topic lc) w
  = (Ret (Some err), [http_Get_call (lookupURL a (Topic lc))], w1) /\
  On X lc w = (Ret (Some err), [http_Get_call (lookupURL a (Topic lc))], w1).
Proof.
  intros Hv Hauto Hl Hget.
  assert (ensureTopic X a (Topic lc) w
          = (Ret (Some err), [http_Get_call (lookupURL a (Topic lc))], w1)) as He.
  { rewrite ensureTopic_run, Hget. reflexivity. }
  split; [exact He|].
  rewrite (On_runs_ensureTopic X lc a rest w Hv Hauto Hl).
  unfold bind. rewrite He. reflexivity.
Qed.

Lemma On_lookup_unreachable_witness :
  ensureTopic discovery_unreachable "disc:4161" "orders" []
  = (Ret (Some (foreign_error "connection refused")),
     [http_Get_call "http://disc:4161/lookup?topic=orders"],
     ["GET http://disc:4161/lookup?topic=orders"]) /\
  On discovery_unreachable (listener pong) []
  = (Ret (Some (foreign_error "connection refused")),
     [http_Get_call "http://disc:4161/lookup?topic=orders"],
     ["GET http://disc:4161/lookup?topic=orders"]).
Proof.
  refine (On_lookup_unreachable discovery_unreachable (listener pong) []
            ["GET http://disc:4161/lookup?topic=orders"]
            "disc:4161" ["other:4161"] (foreign_error "connection refused")
            _ eq_refl eq_refl eq_refl).
  repeat split; discriminate.
Defined.

Ltac settle_answer :=
  repeat split; intros; try discriminate;
  repeat match goal with
         | H : exists _, _ |- _ => destruct H as (? & ? & ?)
         | H : inl _ = inl _ |- _ => injection H as <-
         | H : inr _ = inr _ |- _ => injection H as <-
         | H : _ \/ _ |- _ => destruct H
         | H : _ /\ _ |- _ => destruct H
         end;
  try contradiction; try discriminate; try reflexivity; eauto 7.

(** X7.  [checkTopic] always returns after exactly one request, the lookup
    query.  It reports the topic as existing exactly when the answer has
    status 200, and never together with an error; it returns no error exactly
    when the answer has status 200 or 404; a request that gets no answer
    gives [false] and the transport's error. *)
Theorem checkTopic_answers {T : Types} (X : Ops T) (a t : string) (w : World T) :
  exists (exist : bool) (err : error),
    checkTopic X a t w =
    (Ret (exist, err), [http_Get_call (lookupURL a t)],
     (http_Get X (lookupURL a t) w).2) /\
    (exist = true <->
     exists resp, (http_Get X (lookupURL a t) w).1 = inl resp /\
                  StatusCode resp = 200) /\
    (exist = true -> err = None) /\
    (err = None <->
     exists resp, (http_Get X (lookupURL a t) w).1 = inl resp /\
                  (StatusCode resp = 200 \/ StatusCode resp = 404)) /\
    (forall e, (http_Get X (lookupURL a t) w).1 = inr e ->
               exist = false /\ err = Some e).
Proof.
  rewrite checkTopic_run.
  destruct ((http_Get X (lookupURL a t) w).1) as [resp|e]; simpl.
  - destruct (StatusCode resp =? http_StatusOK)%Z eqn:E2;
      [apply Z.eqb_eq in E2 | apply Z.eqb_neq in E2].
    + exists true, None. split; [reflexivity | settle_answer].
    + destruct (StatusCode resp =? http_StatusNotFound)%Z eqn:E4;
        [apply Z.eqb_eq in E4 | apply Z.eqb_neq in E4].
      * exists false, None. split; [reflexivity | settle_answer].
      * eexists false, (Some _). split; [reflexivity | settle_answer].
  - exists false, (Some e). split; [reflexivity | settle_answer].
Qed.

(** X8.  [createTopic] returns nil exactly when the node query is answered
    with status 200, its body decodes to a non-empty list of nodes, and the
    create-topic command sent to the first of them is answered with status
    200. *)
Theorem createTopic_nil_iff {T : Types} (X : Ops T) (t a : string) (w : World T) :
  outcome_of (createTopic X t a w) = Ret None <->
  exists (resp : Response) (w1 : World T) (n0 : Node) (rest : list Node)
         (r : Response),
    http_Get X (nodesURL a) w = (inl resp, w1) /\
    StatusCode resp = 200 /\
    json_Decode_nodes X (Body resp) = inl (n0 :: rest) /\
    (http_Post X (createURL n0 t) "" w1).1 = inl r /\
    StatusCode r = 200.
Proof.
  split.
  - intros Hnil.
    destruct (http_Get X (nodesURL a) w) as [[resp|err] w1] eqn:H.
    + destruct (Z.eq_dec (StatusCode resp) http_StatusOK) as [Hs|Hs].
      * destruct (json_Decode_nodes X (Body resp)) as [[|n0 rest]|err] eqn:Hd.
        -- rewrite (createTopic_no_nodes X _ _ _ _ _ H Hs Hd) in Hnil. discriminate.
        -- rewrite (createTopic_first_node X _ _ _ _ _ _ _ H Hs Hd) in Hnil.
           unfold outcome_of in Hnil. simpl in Hnil.
           destruct ((http_Post X (createURL n0 t) "" w1).1) as [r|err] eqn:Hp;
             simpl in Hnil; [|discriminate].
           destruct (StatusCode r =? http_StatusOK)%Z eqn:E; [|discriminate].
           apply Z.eqb_eq in E.
           exists resp, w1, n0, rest, r. repeat split; assumption.
        -- rewrite (createTopic_bad_body X _ _ _ _ _ _ H Hs Hd) in Hnil. discriminate.
      * rewrite (createTopic_bad_status X _ _ _ _ _ H Hs) in Hnil. discriminate.
    + rewrite (createTopic_no_answer X _ _ _ _ _ H) in Hnil. discriminate.
  - intros (resp & w1 & n0 & rest & r & H & Hs & Hd & Hp & Hr).
    rewrite (createTopic_first_node X _ _ _ _ _ _ _ H Hs Hd).
    unfold outcome_of. simpl. rewrite Hp. simpl.
    apply Z.eqb_eq in Hr. unfold http_StatusOK. rewrite Hr. reflexivity.
Qed.

Lemma createTopic_nil_iff_witness :
  outcome_of (createTopic two_nodes "orders" "disc:4161" []) = Ret None /\
  outcome_of (createTopic create_refused "orders" "disc:4161" []) <> Ret None.
Proof.
  split.
  - apply (proj2 (createTopic_nil_iff two_nodes "orders" "disc:4161" [])).
    exists (response 200 "200 OK"), ["GET http://disc:4161/nodes"], n1, [n2],
           (response 200 "200 OK").
    repeat split.
  - intros H.
    destruct (proj1 (createTopic_nil_iff create_refused "orders" "disc:4161" []) H)
      as (resp & w1 & n0 & rest & r & Hget & _ & Hd & Hp & Hr).
    injection Hget as <- <-. injection Hd as <- <-.
    injection Hp as <-. discriminate.
Defined.

(** X9.  [createTopic] issues a create-topic command only after the node
    query was answered with status 200 and a non-empty decodable list, and
    then exactly one: a POST with empty content type and no body to
    [http://<broadcast_address>:<tcp_port>/topic/create?topic=<topic>] of the
    first node.  The other nodes are never contacted. *)
Theorem createTopic_command {T : Types} (X : Ops T) (t a : string) (w : World T)
        (url contentType : string) :
  In (http_Post_call url contentType) (trace_of (createTopic X t a w)) ->
  exists (resp : Response) (w1 : World T) (n0 : Node) (rest : list Node),
    http_Get X (nodesURL a) w = (inl resp, w1) /\
    StatusCode resp = 200 /\
    json_Decode_nodes X (Body resp) = inl (n0 :: rest) /\
    url = "http://" +:+ (Address n0 +:+ ":" +:+ itoa (TCPPort n0))
          +:+ "/topic/create?topic=" +:+ t /\
    contentType = "" /\
    trace_of (createTopic X t a w)
    = [http_Get_call (nodesURL a); http_Post_call url contentType].
Proof.
  intros Hin.
  destruct (http_Get X (nodesURL a) w) as [[resp|err] w1] eqn:H.
  - destruct (Z.eq_dec (StatusCode resp) http_StatusOK) as [Hs|Hs].
    + destruct (json_Decode_nodes X (Body resp)) as [[|n0 rest]|err] eqn:Hd.
      * rewrite (createTopic_no_nodes X _ _ _ _ _ H Hs Hd) in Hin.
        destruct Hin as [Hin|[]]. discriminate.
      * rewrite (createTopic_first_node X _ _ _ _ _ _ _ H Hs Hd) in Hin |- *.
        destruct Hin as [Hin|[Hin|[]]]; [discriminate|].
        injection Hin as <- <-.
        exists resp, w1, n0, rest. repeat split; assumption.
      * rewrite (createTopic_bad_body X _ _ _ _ _ _ H Hs Hd) in Hin.
        destruct Hin as [Hin|[]]. discriminate.
    + rewrite (createTopic_bad_status X _ _ _ _ _ H Hs) in Hin.
      destruct Hin as [Hin|[]]. discriminate.
  - rewrite (createTopic_no_answer X _ _ _ _ _ H) in Hin.
    destruct Hin as [Hin|[]]. discriminate.
Qed.

Lemma createTopic_command_witness :
  exists (resp : Response) (w1 : World T0) (n0 : Node) (rest : list Node),
    http_Get two_nodes (nodesURL "disc:4161") [] = (inl resp, w1) /\
    StatusCode resp = 200 /\
    json_Decode_nodes two_nodes (Body resp) = inl (n0 :: rest) /\
    "http://n1:4150/topic/create?topic=orders"
    = "http://" +:+ (Address n0 +:+ ":" +:+ itoa (TCPPort n0))
      +:+ "/topic/create?topic=" +:+ "orders" /\
    "" = "" /\
    trace_of (createTopic two_nodes "orders" "disc:4161" [])
    = [http_Get_call (nodesURL "disc:4161");
       http_Post_call "http://n1:4150/topic/create?topic=orders" ""].
Proof.
  apply (createTopic_command two_nodes "orders" "disc:4161" []
           "http://n1:4150/topic/create?topic=orders" "").
  right. left. reflexivity.
Defined.

(** X10.  The provisioner returns nil exactly when the lookup query is
    answered with status 200, or with status 404 and [createTopic], run in
    the world the lookup left, returns nil. *)
Theorem ensureTopic_nil_iff {T : Types} (X : Ops T) (a t : string) (w : World T) :
  outcome_of (ensureTopic X a t w) = Ret None <->
  exists resp : Response,
    (http_Get X (lookupURL a t) w).1 = inl resp /\
    (StatusCode resp = 200 \/
     (StatusCode resp = 404 /\
      outcome_of (createTopic X t a (http_Get X (lookupURL a t) w).2) = Ret None)).
Proof.
  rewrite ensureTopic_run.
  destruct ((http_Get X (lookupURL a t) w).1) as [resp|e]; simpl.
  - destruct (StatusCode resp =? http_StatusOK)%Z eqn:E2.
    + apply Z.eqb_eq in E2. split; [|reflexivity].
      intros _. exists resp. split; [reflexivity | left; exact E2].
    + apply Z.eqb_neq in E2.
      destruct (StatusCode resp =? http_StatusNotFound)%Z eqn:E4.
      * apply Z.eqb_eq in E4.
        destruct (createTopic X t a (http_Get X (lookupURL a t) w).2)
          as [[r tr] w2] eqn:Hc.
        unfold outcome_of. simpl. split.
        -- intros ->. exists resp. split; [reflexivity|]. right.
           split; [exact E4 | reflexivity].
        -- intros (r' & Hr & [Hs | [_ Hs]]); injection Hr as <-;
             [contradiction | exact Hs].
      * apply Z.eqb_neq in E4. split; [discriminate|].
        intros (r' & Hr & [Hs | [Hs _]]); injection Hr as <-; contradiction.
  - split; [discriminate|]. intros (r' & Hr & _). discriminate.
Qed.

(** ** Every run of the dispatch callback *)

Section RunsOfDispatch.

Context {T : Types} (X : Ops T).

Lemma handleMessage_nil_handler_panics (lc : ListenerConfig T)
      (message : nsq_Message) (w : World T) (m : Message) :
  json_Unmarshal X (msg_Body message) (undecoded message) = (m, None) ->
  HandlerFunc_ lc = None ->
  handleMessage X lc message w =
  (Panic "runtime error: invalid memory address or nil pointer dereference", [], w).
Proof.
  intros Hp Hh. unfold handleMessage. fold (undecoded message). rewrite Hp.
  unfold call_HandlerFunc. rewrite Hh. reflexivity.
Qed.

(** Every run of [handleMessage] is one of them. *)
Lemma handleMessage_run (lc : ListenerConfig T) (message : nsq_Message)
      (w : World T) :
  dispatch_run X lc message w (handleMessage X lc message w).
Proof.
  destruct (decoded X message) as [m [e|]] eqn:Hd.
  - rewrite (handleMessage_parse_error X lc message w m e Hd).
    apply (run_parse_error X _ _ _ m e Hd).
  - destruct (HandlerFunc_ lc) as [h|] eqn:Hh.
    + destruct (h m w) as [[[m' res] [e|]] w1] eqn:Hrun.
      * rewrite (handleMessage_handler_error X lc message w m h Hd Hh m' res e w1 Hrun).
        apply (run_handler_error X _ _ _ m h m' res e w1 Hd Hh Hrun).
      * destruct (string_dec (ReplyTo m') "") as [Hr|Hr].
        -- rewrite (handleMessage_no_reply X lc message w m h Hd Hh m' res w1 Hrun Hr).
           apply (run_no_reply X _ _ _ m h m' res w1 Hd Hh Hrun Hr).
        -- destruct (NewEmitter X (EmitterConfig_zero X) w1) as [[em|e] w2] eqn:He.
           ++ rewrite (handleMessage_reply X lc message w m h Hd Hh m' res em w1 w2
                         Hrun Hr He).
              apply (run_reply X _ _ _ m h m' res em w1 w2 Hd Hh Hrun Hr He).
           ++ rewrite (handleMessage_no_emitter X lc message w m h Hd Hh m' res e
                         w1 w2 Hrun Hr He).
              apply (run_no_emitter X _ _ _ m h m' res e w1 w2 Hd Hh Hrun Hr He).
    + rewrite (handleMessage_nil_handler_panics lc message w m Hd Hh).
      apply (run_nil_handler X _ _ _ m Hd Hh).
Qed.

End RunsOfDispatch.

(** X11.  In any run the callback makes at most three calls, in this order:
    the handler, once, on the decoded message; the construction of the
    default emitter; one publish call.  It never calls the discovery service,
    a broker's HTTP interface or the consumer, and never publishes more than
    once. *)
Theorem handleMessage_call_order {T : Types} (X : Ops T)
        (lc : ListenerConfig T) (message : nsq_Message) (w : World T) :
  dispatch_trace X (decoded X message).1 (trace_of (handleMessage X lc message w)) /\
  (List.length (publishes (trace_of (handleMessage X lc message w))) <= 1)%nat /\
  Forall (fun e => is_http_call e = false /\ is_transport_call e = false)
         (trace_of (handleMessage X lc message w)).
Proof.
  destruct (handleMessage_run X lc message w) as
    [m e Hd | m Hd Hh | m h m' res e w1 Hd Hh Hrun | m h m' res w1 Hd Hh Hrun Hr
     | m h m' res e w1 w2 Hd Hh Hrun Hr He | m h m' res em w1 w2 Hd Hh Hrun Hr He];
    rewrite Hd; unfold trace_of; simpl.
  - split; [left; reflexivity|]. split; [lia | constructor].
  - split; [left; reflexivity|]. split; [lia | constructor].
  - split; [right; left; reflexivity|]. split; [lia|].
    repeat constructor.
  - split; [right; left; reflexivity|]. split; [lia|].
    repeat constructor.
  - split; [right; right; left; reflexivity|]. split; [lia|].
    repeat constructor.
  - split; [right; right; right; exists (ReplyTo m'), res; reflexivity|].
    split; [lia|]. repeat constructor.
Qed.

(** X12.  A handler is taken here as a function that returns: a panic
    raised inside the user's handler is not covered.  With that, the
    callback's own code panics in one case only: the body parses and the
    configuration has no handler, so that a nil function is called at line
    80.  That panic comes before any call is made and leaves the world as it
    was.  Hence the callback that [On] registers, built from a configuration
    that passed line 36, returns whenever its handler returns. *)
Theorem handleMessage_own_panic {T : Types} (X : Ops T)
        (lc : ListenerConfig T) (message : nsq_Message) (w : World T) :
  ((exists t, outcome_of (handleMessage X lc message w) = Panic t) <->
   ((decoded X message).2 = None /\ HandlerFunc_ lc = None)) /\
  (forall t, outcome_of (handleMessage X lc message w) = Panic t ->
     handleMessage X lc message w =
     (Panic "runtime error: invalid memory address or nil pointer dereference",
      [], w)) /\
  (valid lc ->
   exists e : error,
     outcome_of (handleMessage X (fillDefaults lc) message w) = Ret e).
Proof.
  split; [|split].
  - destruct (handleMessage_run X lc message w) as
      [m e Hd | m Hd Hh | m h m' res e w1 Hd Hh Hrun | m h m' res w1 Hd Hh Hrun Hr
       | m h m' res e w1 w2 Hd Hh Hrun Hr He | m h m' res em w1 w2 Hd Hh Hrun Hr He];
      rewrite Hd; unfold outcome_of; simpl;
      try (split; [intros (t & Ht); discriminate
                  | intros (Hn & Hnil); congruence]).
    split; [intros _; split; [reflexivity | exact Hh] | intros _; eexists; reflexivity].
  - intros t.
    destruct (handleMessage_run X lc message w) as
      [m e Hd | m Hd Hh | m h m' res e w1 Hd Hh Hrun | m h m' res w1 Hd Hh Hrun Hr
       | m h m' res e w1 w2 Hd Hh Hrun Hr He | m h m' res em w1 w2 Hd Hh Hrun Hr He];
      intros Ht; try discriminate.
    reflexivity.
  - intros (_ & _ & Hh).
    destruct (fillDefaults_frame lc) as (_ & _ & Hh' & _).
    rewrite <- Hh' in Hh.
    destruct (handleMessage_run X (fillDefaults lc) message w) as
      [m e Hd | m Hd Hnil | m h m' res e w1 Hd Hs Hrun | m h m' res w1 Hd Hs Hrun Hr
       | m h m' res e w1 w2 Hd Hs Hrun Hr He | m h m' res em w1 w2 Hd Hs Hrun Hr He];
      try (eexists; reflexivity).
    contradiction.
Qed.

Lemma handleMessage_own_panic_witness :
  handleMessage all_well_ops (config0 "orders" "billing" [] None 1 false)
                (message_of "x") ["earlier"]
  = (Panic "runtime error: invalid memory address or nil pointer dereference",
     [], ["earlier"]) /\
  exists e : error,
    outcome_of (handleMessage all_well_ops (fillDefaults (listener pong))
                              (message_of "x") []) = Ret e.
Proof.
  split.
  - destruct (proj2 (proj1 (handleMessage_own_panic all_well_ops
                       (config0 "orders" "billing" [] None 1 false)
                       (message_of "x") ["earlier"]))
                    (conj eq_refl eq_refl)) as (t & Ht).
    apply (proj1 (proj2 (handleMessage_own_panic all_well_ops
                       (config0 "orders" "billing" [] None 1 false)
                       (message_of "x") ["earlier"])) t Ht).
  - apply (proj2 (proj2 (handleMessage_own_panic all_well_ops (listener pong)
                    (message_of "x") []))).
    repeat split; discriminate.
Defined.

(** X13.  The callback reads nothing of the configuration but the handler:
    two configurations with the same handler give the same callback, whatever
    their topic, channel, discovery addresses, concurrency and
    [AutoCreateTopic].  In particular the reply is published through an
    emitter with the default configuration, not to the listener's discovery
    addresses. *)
Theorem handleMessage_reads_handler_only {T : Types} (X : Ops T)
        (lc lc' : ListenerConfig T) (message : nsq_Message) (w : World T) :
  HandlerFunc_ lc = HandlerFunc_ lc' ->
  handleMessage X lc message w = handleMessage X lc' message w.
Proof.
  intros H. unfold handleMessage, call_HandlerFunc. rewrite H. reflexivity.
Qed.

Lemma handleMessage_reads_handler_only_witness :
  handleMessage all_well_ops (listener pong) (message_of "replies") []
  = handleMessage all_well_ops (config0 "other" "audit" [] (Some pong) 8 false)
                  (message_of "replies") [].
Proof.
  apply (handleMessage_reads_handler_only all_well_ops (listener pong)
           (config0 "other" "audit" [] (Some pong) 8 false)).
  reflexivity.
Defined.

(** X14.  The callback returns nil, which lets the transport finish the
    message, only if the body parsed, the handler ran on the decoded message
    and returned no error, and either the reply destination the handler left
    is empty and nothing was published, or it is not and the handler's result
    was published to it, once. *)
Theorem handleMessage_nil_means_handled {T : Types} (X : Ops T)
        (lc : ListenerConfig T) (message : nsq_Message) (w : World T) :
  outcome_of (handleMessage X lc message w) = Ret None ->
  exists (m : Message) (h : HandlerFunc T) (m' : Message) (res : iface T)
         (w1 : World T),
    decoded X message = (m, None) /\
    HandlerFunc_ lc = Some h /\
    h m w = ((m', res, None), w1) /\
    ((ReplyTo m' = "" /\
      trace_of (handleMessage X lc message w) = [HandlerFunc_call m]) \/
     (ReplyTo m' <> "" /\
      publishes (trace_of (handleMessage X lc message w)) = [(ReplyTo m', res)])).
Proof.
  intros Hnil.
  destruct (handleMessage_run X lc message w) as
    [m e Hd | m Hd Hh | m h m' res e w1 Hd Hh Hrun | m h m' res w1 Hd Hh Hrun Hr
     | m h m' res e w1 w2 Hd Hh Hrun Hr He | m h m' res em w1 w2 Hd Hh Hrun Hr He];
    try discriminate.
  - exists m, h, m', res, w1. repeat split; try assumption.
    left. split; [exact Hr | reflexivity].
  - exists m, h, m', res, w1. repeat split; try assumption.
    right. split; [exact Hr | reflexivity].
Qed.

Lemma handleMessage_nil_means_handled_witness :
  exists (m : Message) (h : HandlerFunc T0) (m' : Message) (res : iface T0)
         (w1 : World T0),
    decoded all_well_ops (message_of "replies") = (m, None) /\
    HandlerFunc_ (listener pong) = Some h /\
    h m [] = ((m', res, None), w1) /\
    ((ReplyTo m' = "" /\
      trace_of (handleMessage all_well_ops (listener pong) (message_of "replies") [])
      = [HandlerFunc_call m]) \/
     (ReplyTo m' <> "" /\
      publishes (trace_of (handleMessage all_well_ops (listener pong)
                                         (message_of "replies") []))
      = [(ReplyTo m', res)])).
Proof.
  apply (handleMessage_nil_means_handled all_well_ops (listener pong)
           (message_of "replies") []).
  reflexivity.
Defined.

(** ** What [On] allocates *)

(** X15.  [On] allocates at most one array: the default list, when the
    configuration passes validation and the caller's [Lookup] has length 0
    (nil or empty); the parameter's slice then points to that new array.  In
    every other case the heap is left exactly as it was, and with a non-empty
    [Lookup] the parameter keeps the caller's slice header, so that [On] reads
    the discovery addresses from the caller's own array. *)
Theorem On_mem_allocation {T : Types} (X : Ops T) (s : Store T) (w : World T) :
  let v := caller_lc s in
  let passes := mem_Topic v <> "" /\ mem_Channel v <> "" /\ mem_HandlerFunc v <> None in
  let l := fresh (dom (arrays s)) in
  (passes -> slice_len (mem_Lookup v) = 0%nat ->
   arrays (On_mem X s w).2 = <[l := ["localhost:4161"]]> (arrays s) /\
   arrays s !! l = None /\
   mem_Lookup (On_lc (On_mem X s w).2)
   = {| base := Some l; slice_len := 1; slice_cap := 1 |}) /\
  (passes -> slice_len (mem_Lookup v) <> 0%nat ->
   arrays (On_mem X s w).2 = arrays s /\
   mem_Lookup (On_lc (On_mem X s w).2) = mem_Lookup v) /\
  (~ passes -> arrays (On_mem X s w).2 = arrays s).
Proof.
  intros v passes l. unfold On_mem.
  change (On_lc (pass_by_value s)) with v.
  split; [|split].
  - intros (Ht & Hc & Hh) Hlen.
    rewrite (len_string_not0 _ Ht), (len_string_not0 _ Hc), (is_nil_false _ Hh).
    rewrite Hlen. cbv zeta. change (Z.of_nat 0 =? 0)%Z with true. cbv iota.
    split; [|split; [apply fresh_not_allocated|]];
      destruct (mem_HandlerConcurrency (On_lc (assign_default_Lookup (pass_by_value s)))
                =? 0)%Z; reflexivity.
  - intros (Ht & Hc & Hh) Hlen.
    rewrite (len_string_not0 _ Ht), (len_string_not0 _ Hc), (is_nil_false _ Hh).
    cbv zeta.
    replace (Z.of_nat (slice_len (mem_Lookup v)) =? 0)%Z with false
      by (symmetry; apply Z.eqb_neq; lia).
    change (On_lc (pass_by_value s)) with v.
    destruct (mem_HandlerConcurrency v =? 0)%Z; split; reflexivity.
  - intros Hnot.
    destruct (len_string (mem_Topic v) =? 0)%Z eqn:Et; [reflexivity|].
    destruct (len_string (mem_Channel v) =? 0)%Z eqn:Ec; [reflexivity|].
    destruct (is_nil (mem_HandlerFunc v)) eqn:Eh; [reflexivity|].
    exfalso. apply Hnot. repeat split.
    + intros H. rewrite H in Et. discriminate.
    + intros H. rewrite H in Ec. discriminate.
    + intros H. rewrite H in Eh. discriminate.
Qed.

Lemma On_mem_allocation_witness :
  (arrays (On_mem all_well_ops caller_with_nil []).2
   = <[fresh (dom (arrays caller_with_nil)) := ["localhost:4161"]]>
       (arrays caller_with_nil) /\
   arrays caller_with_nil !! fresh (dom (arrays caller_with_nil)) = None /\
   mem_Lookup (On_lc (On_mem all_well_ops caller_with_nil []).2)
   = {| base := Some (fresh (dom (arrays caller_with_nil)));
        slice_len := 1; slice_cap := 1 |}) /\
  (arrays (On_mem all_well_ops caller_with_two []).2 = arrays caller_with_two /\
   mem_Lookup (On_lc (On_mem all_well_ops caller_with_two []).2)
   = mem_Lookup (caller_lc caller_with_two)).
Proof.
  split.
  - apply (proj1 (On_mem_allocation all_well_ops caller_with_nil [])).
    + repeat split; discriminate.
    + reflexivity.
  - apply (proj1 (proj2 (On_mem_allocation all_well_ops caller_with_two []))).
    + repeat split; discriminate.
    + discriminate.
Defined.

(** ** The successful path of [On] *)

(** X16.  Once the consumer is constructed (line 63), [On] registers the
    callback [handleMessage] of the defaulted configuration at the defaulted
    concurrency, then connects to the whole defaulted list of discovery
    addresses, and returns exactly what the connect returns: a connect error
    is handed to the caller as it is, after the handler has been registered. *)
Theorem On_returns_connect_result {T : Types} (X : Ops T)
        (lc : ListenerConfig T) (w w0 w1 : World T)
        (a : string) (rest : list string) (trp : list (Event T)) (c : Consumer T) :
  valid lc ->
  Lookup (fillDefaults lc) = a :: rest ->
  (if AutoCreateTopic lc
   then ensureTopic X a (Topic lc) w = (Ret None, trp, w0)
   else trp = [] /\ w0 = w) ->
  nsq_NewConsumer X (Topic lc) (Channel lc)
                  (newListenerConfig X (fillDefaults lc)) w0 = (inl c, w1) ->
  let w2 := AddConcurrentHandlers X c (handleMessage X (fillDefaults lc))
                                  (HandlerConcurrency (fillDefaults lc)) w1 in
  On X lc w =
  (Ret (ConnectToNSQLookupds X c (a :: rest) w2).1,
   trp ++ subscription_calls X (fillDefaults lc),
   (ConnectToNSQLookupds X c (a :: rest) w2).2).
Proof.
  intros Hv Hl Hprov Hnc w2.
  destruct (fillDefaults_frame lc) as (Ht & Hc & _ & Hauto).
  assert (subscribe X (fillDefaults lc) w0 =
          (Ret (ConnectToNSQLookupds X c (a :: rest) w2).1,
           subscription_calls X (fillDefaults lc),
           (ConnectToNSQLookupds X c (a :: rest) w2).2)) as Hsub.
  { rewrite <- Ht, <- Hc in Hnc. rewrite <- Hl.
    apply (subscribe_consumer X (fillDefaults lc) w0 w1 c Hnc). }
  rewrite (On_stages X lc w Hv), (provisionAndSubscribe_run X _ a rest w Hl).
  rewrite Hauto, Ht. destruct (AutoCreateTopic lc).
  - rewrite Hprov, Hsub. reflexivity.
  - destruct Hprov as [-> ->]. rewrite Hsub. reflexivity.
Qed.

Lemma On_returns_connect_result_witness :
  On connect_fails (config0 "orders" "billing" ["a:4161"; "b:4161"] (Some pong) 0 false) []
  = (Ret (Some (foreign_error "no lookupd reachable")),
     [NewConsumer_call "orders" "billing" (tt : nsq_Config T0);
      AddConcurrentHandlers_call 1;
      ConnectToNSQLookupds_call ["a:4161"; "b:4161"]],
     ["consumer orders/billing"; "handlers 1"; "connect"; "a:4161"; "b:4161"]).
Proof.
  refine (On_returns_connect_result connect_fails
            (config0 "orders" "billing" ["a:4161"; "b:4161"] (Some pong) 0 false)
            [] [] ["consumer orders/billing"]
            "a:4161" ["b:4161"] [] tt
            _ eq_refl (conj eq_refl eq_refl) eq_refl).
  repeat split; discriminate.
Defined.
